(** * A shallow embedding of the users/todos CRUD backend

    The development follows the TypeScript sources:

    - [src/models/user.ts], [src/models/todo.ts]: the entity and request
      interfaces, one Rocq module per interface;
    - [src/lib/database.ts], which the controllers import: the bun:sqlite
      connection [db] and the two [CREATE TABLE] statements;
    - [src/controllers/user.controller.ts] and
      [src/controllers/todo.controller.ts]: the tsoa controllers, written
      in a small state-and-exception monad that carries the controller's
      status code and the database.

    Numbers are modelled as [Z] (requests carry integers), text as
    [string], an optional property [p?: T] as [option T].
    [CURRENT_TIMESTAMP] is an input of the statements that read it: a
    [timestamp] counts seconds, and SQLite's text form
    'YYYY-MM-DD HH:MM:SS' orders the same way.

    The first part holds the definitions, the second what every method
    and every route does to the tables, the third the properties C1 to
    C10 of the specification. *)

From Stdlib Require Import ZArith List String Bool Lia.
From Stdlib Require Import Sorting.Sorted Sorting.Permutation.
Import ListNotations.

Local Open Scope string_scope.
Local Open Scope list_scope.
Local Open Scope Z_scope.

Definition timestamp : Type := Z.

(** ** models/user.ts *)

Module User.
Record t : Type := mk
  { id : Z; name : string; email : string; created_at : timestamp }.
End User.

Module CreateUserRequest.
Record t : Type := mk { name : string; email : string }.
End CreateUserRequest.

Module UpdateUserRequest.
Record t : Type := mk { name : option string; email : option string }.
End UpdateUserRequest.

(** ** models/todo.ts

    [completed] is the value of the BOOLEAN column as SQLite stores and
    returns it: the integer 0 (false) or 1 (true).  The controllers write
    it as [completed ? 1 : 0] and hand rows back as they were read. *)

Module Todo.
Record t : Type := mk
  { id : Z;
    user_id : Z;
    title : string;
    description : option string;
    completed : Z;
    created_at : timestamp;
    updated_at : timestamp }.
End Todo.

Module CreateTodoRequest.
Record t : Type := mk
  { user_id : Z; title : string; description : option string }.
End CreateTodoRequest.

Module UpdateTodoRequest.
Record t : Type := mk
  { title : option string;
    description : option string;
    completed : option bool }.
End UpdateTodoRequest.

(** ** JavaScript helpers *)

(** [haystack.includes(needle)] *)
Fixpoint includes (needle haystack : string) : bool :=
  String.prefix needle haystack
  || match haystack with
     | EmptyString => false
     | String _ rest => includes needle rest
     end.

(** [d || null] on an optional string: [undefined] and the empty string
    are falsy. *)
Definition or_null (d : option string) : option string :=
  match d with
  | Some s => if String.eqb s "" then None else Some s
  | None => None
  end.

(** [b ? 1 : 0] *)
Definition bit (b : bool) : Z := if b then 1 else 0.

(** A parameter with a default value, [p: number = dflt]. *)
Definition default_to {A : Type} (dflt : A) (p : option A) : A :=
  match p with
  | Some v => v
  | None => dflt
  end.

(** ** lib/database.ts: the storage layer

    A table is the list of its rows in rowid order.  Both tables are
    declared [INTEGER PRIMARY KEY AUTOINCREMENT]: the [sqlite_sequence]
    entry of a table remembers the largest rowid it ever held.

    [foreign_keys] is the connection's [PRAGMA foreign_keys].  SQLite
    parses [REFERENCES ... ON DELETE CASCADE] either way and enforces it,
    cascade included, only while the pragma is on.  The pragma belongs to
    the connection, not to the file, and is off on a new connection
    unless the library was built to turn it on. *)

Record Database : Type := mkDatabase
  { foreign_keys : bool;
    users : list User.t;
    users_seq : Z;
    todos : list Todo.t;
    todos_seq : Z }.

(** [new Database("database.sqlite", { create: true })] on a fresh file,
    followed by [PRAGMA journal_mode = WAL] (which changes how the file is
    written, not what it holds) and the two [CREATE TABLE IF NOT EXISTS].
    The module issues no [PRAGMA foreign_keys]. *)
Definition db : Database :=
  {| foreign_keys := false;
     users := [];
     users_seq := 0;
     todos := [];
     todos_seq := 0 |}.

Section Rows.
Context {Row : Type}.
Variable rowid : Row -> Z.
Variable created_at : Row -> timestamp.

(** [SELECT * FROM tbl WHERE id = ?1], read with [.get]: first match. *)
Definition select_by_id (i : Z) (rows : list Row) : option Row :=
  find (fun r => rowid r =? i) rows.

(** [DELETE FROM tbl WHERE id = ?1] *)
Definition delete_by_id (i : Z) (rows : list Row) : list Row :=
  filter (fun r => negb (rowid r =? i)) rows.

Definition max_rowid (rows : list Row) : Z :=
  fold_right (fun r m => Z.max (rowid r) m) 0 rows.

(** The rowid AUTOINCREMENT gives to the next inserted row. *)
Definition next_rowid (seq : Z) (rows : list Row) : Z :=
  Z.max seq (max_rowid rows) + 1.

(** [ORDER BY created_at DESC]: rows with equal timestamps keep their
    scan (rowid) order. *)
Fixpoint insert_desc (r : Row) (rows : list Row) : list Row :=
  match rows with
  | [] => [r]
  | r' :: rest =>
      if created_at r' <=? created_at r
      then r :: r' :: rest
      else r' :: insert_desc r rest
  end.

Definition order_by_created_at_desc (rows : list Row) : list Row :=
  fold_right insert_desc [] rows.

(** [a] may come before [b] in a listing, newest first. *)
Definition newest_first (a b : Row) : Prop := created_at b <= created_at a.

(** [LIMIT ? OFFSET ?]: SQLite treats a negative OFFSET as 0 and a
    negative LIMIT as no upper bound. *)
Definition limit_offset (limit offset : Z) (rows : list Row) : list Row :=
  let rest := skipn (Z.to_nat offset) rows in
  if limit <? 0 then rest else firstn (Z.to_nat limit) rest.
End Rows.

(** What a statement does: a value, or a thrown [Error] with its message. *)
Inductive Outcome (A : Type) : Type :=
| Return (a : A)
| Throw (message : string).
Arguments Return {A} a.
Arguments Throw {A} message.

(** *** Statements on [users] *)

Definition email_taken (e : string) (rows : list User.t) : bool :=
  existsb (fun u => String.eqb (User.email u) e) rows.

(** [INSERT INTO users (name, email) VALUES (?1, ?2)]; the result is
    [lastInsertRowid]. *)
Definition insert_user (name email : string) (now : timestamp)
    (d : Database) : Outcome Z * Database :=
  if email_taken email (users d)
  then (Throw "UNIQUE constraint failed: users.email", d)
  else
    let i := next_rowid User.id (users_seq d) (users d) in
    (Return i,
     {| foreign_keys := foreign_keys d;
        users := users d ++ [User.mk i name email now];
        users_seq := i;
        todos := todos d;
        todos_seq := todos_seq d |}).

(** The entries of a controller's [updates] array with the matching
    entries of [values]. *)
Inductive UserAssignment : Type :=
| SetName (v : string)
| SetEmail (v : string).

Definition assign_user (u : User.t) (a : UserAssignment) : User.t :=
  match a with
  | SetName v => User.mk (User.id u) v (User.email u) (User.created_at u)
  | SetEmail v => User.mk (User.id u) (User.name u) v (User.created_at u)
  end.

(** [UPDATE users SET <updates> WHERE id = ?n] *)
Definition update_user (updates : list UserAssignment) (i : Z)
    (d : Database) : Outcome unit * Database :=
  let set u := fold_left assign_user updates u in
  let others := delete_by_id User.id i (users d) in
  if existsb (fun u => (User.id u =? i)
                       && negb (String.eqb (User.email (set u)) (User.email u))
                       && email_taken (User.email (set u)) others)
       (users d)
  then (Throw "UNIQUE constraint failed: users.email", d)
  else
    (Return tt,
     {| foreign_keys := foreign_keys d;
        users := map (fun u => if User.id u =? i then set u else u) (users d);
        users_seq := users_seq d;
        todos := todos d;
        todos_seq := todos_seq d |}).

(** [DELETE FROM users WHERE id = ?1].  The rows of [todos] that reference
    a deleted user go with it when foreign keys are enforced. *)
Definition delete_user (i : Z) (d : Database) : Outcome unit * Database :=
  (Return tt,
   {| foreign_keys := foreign_keys d;
      users := delete_by_id User.id i (users d);
      users_seq := users_seq d;
      todos :=
        if foreign_keys d
           && existsb (fun u => User.id u =? i) (users d)
        then filter (fun t => negb (Todo.user_id t =? i)) (todos d)
        else todos d;
      todos_seq := todos_seq d |}).

(** *** Statements on [todos] *)

(** [INSERT INTO todos (user_id, title, description) VALUES (?1, ?2, ?3)];
    [completed], [created_at] and [updated_at] take their defaults. *)
Definition insert_todo (user_id : Z) (title : string)
    (description : option string) (now : timestamp)
    (d : Database) : Outcome Z * Database :=
  if foreign_keys d
     && negb (existsb (fun u => User.id u =? user_id) (users d))
  then (Throw "FOREIGN KEY constraint failed", d)
  else
    let i := next_rowid Todo.id (todos_seq d) (todos d) in
    (Return i,
     {| foreign_keys := foreign_keys d;
        users := users d;
        users_seq := users_seq d;
        todos := todos d ++ [Todo.mk i user_id title description 0 now now];
        todos_seq := i |}).

Inductive TodoAssignment : Type :=
| SetTitle (v : string)
| SetDescription (v : string)
| SetCompleted (v : Z)
| SetUpdatedAtCurrentTimestamp.

Definition assign_todo (now : timestamp) (t : Todo.t) (a : TodoAssignment)
    : Todo.t :=
  match a with
  | SetTitle v =>
      Todo.mk (Todo.id t) (Todo.user_id t) v (Todo.description t)
        (Todo.completed t) (Todo.created_at t) (Todo.updated_at t)
  | SetDescription v =>
      Todo.mk (Todo.id t) (Todo.user_id t) (Todo.title t) (Some v)
        (Todo.completed t) (Todo.created_at t) (Todo.updated_at t)
  | SetCompleted v =>
      Todo.mk (Todo.id t) (Todo.user_id t) (Todo.title t) (Todo.description t)
        v (Todo.created_at t) (Todo.updated_at t)
  | SetUpdatedAtCurrentTimestamp =>
      Todo.mk (Todo.id t) (Todo.user_id t) (Todo.title t) (Todo.description t)
        (Todo.completed t) (Todo.created_at t) now
  end.

(** [UPDATE todos SET <updates> WHERE id = ?n] *)
Definition update_todo (updates : list TodoAssignment) (i : Z)
    (now : timestamp) (d : Database) : Outcome unit * Database :=
  (Return tt,
   {| foreign_keys := foreign_keys d;
      users := users d;
      users_seq := users_seq d;
      todos :=
        map (fun t => if Todo.id t =? i
                      then fold_left (assign_todo now) updates t
                      else t)
          (todos d);
      todos_seq := todos_seq d |}).

(** [DELETE FROM todos WHERE id = ?1] *)
Definition delete_todo (i : Z) (d : Database) : Outcome unit * Database :=
  (Return tt,
   {| foreign_keys := foreign_keys d;
      users := users d;
      users_seq := users_seq d;
      todos := delete_by_id Todo.id i (todos d);
      todos_seq := todos_seq d |}).

(** The conjuncts a controller appends to [WHERE 1=1] (or to
    [WHERE user_id = ?1]), each with its parameter. *)
Inductive TodoCondition : Type :=
| UserIdIs (v : Z)
| CompletedIs (v : Z).

Definition holds (t : Todo.t) (c : TodoCondition) : bool :=
  match c with
  | UserIdIs v => Todo.user_id t =? v
  | CompletedIs v => Todo.completed t =? v
  end.

(** [SELECT * FROM todos WHERE <conditions> ORDER BY created_at DESC] *)
Definition select_todos (conditions : list TodoCondition) (d : Database)
    : list Todo.t :=
  order_by_created_at_desc Todo.created_at
    (filter (fun t => forallb (holds t) conditions) (todos d)).

(** [SELECT * FROM users ORDER BY created_at DESC] *)
Definition select_users (d : Database) : list User.t :=
  order_by_created_at_desc User.created_at (users d).

(** ** The controller monad

    A tsoa [Controller] carries a status code ([setStatus], [getStatus]),
    unset when the request starts; a method either returns or throws an
    [Error].  Statements run against the shared [db], and what they wrote
    stays written when a later step throws. *)

Record State : Type := mkState
  { status : option Z;
    database : Database }.

Definition M (A : Type) : Type := State -> Outcome A * State.

Definition ret {A : Type} (a : A) : M A := fun s => (Return a, s).

Definition throw {A : Type} (message : string) : M A :=
  fun s => (Throw message, s).

Definition bind {A B : Type} (m : M A) (k : A -> M B) : M B :=
  fun s =>
    match m s with
    | (Return a, s') => k a s'
    | (Throw message, s') => (Throw message, s')
    end.

(** [try { body } catch (error) { handler }]; the handler sees the
    error's message. *)
Definition try_catch {A : Type} (body : M A) (handler : string -> M A) : M A :=
  fun s =>
    match body s with
    | (Return a, s') => (Return a, s')
    | (Throw message, s') => handler message s'
    end.

Definition setStatus (code : Z) : M unit :=
  fun s => (Return tt, {| status := Some code; database := database s |}).

Definition getStatus : M (option Z) := fun s => (Return (status s), s).

(** [this.getStatus() === code] *)
Definition status_is (code : Z) (st : option Z) : bool :=
  match st with
  | Some c => c =? code
  | None => false
  end.

(** A query read with [.get] or [.all]. *)
Definition query {A : Type} (q : Database -> A) : M A :=
  fun s => (Return (q (database s)), s).

(** A statement executed with [.run]. *)
Definition run {A : Type} (stmt : Database -> Outcome A * Database) : M A :=
  fun s =>
    let (r, d) := stmt (database s) in
    (r, {| status := status s; database := d |}).

Notation "x <- m ;; k" := (bind m (fun x => k))
  (at level 61, m at next level, right associativity).
Notation "m ;; k" := (bind m (fun _ => k))
  (at level 61, right associativity).

(** What the router sees of one request: the status the controller set, if
    any, what the method did, and the database it left. *)
Record Response (A : Type) : Type := mkResponse
  { code : option Z;
    outcome : Outcome A;
    store : Database }.
Arguments mkResponse {A} code outcome store.
Arguments code {A} r.
Arguments outcome {A} r.
Arguments store {A} r.

(** One request: a new controller instance runs the method on [d]. *)
Definition handle {A : Type} (method : M A) (d : Database) : Response A :=
  let (r, s) := method {| status := None; database := d |} in
  mkResponse (status s) r (database s).

(** The status of a response that returned: the one the method set, else
    the code of its [@SuccessResponse]. *)
Definition http_status (success : Z) (st : option Z) : Z :=
  match st with
  | Some c => if c =? 0 then success else c
  | None => success
  end.

(** ** controllers/user.controller.ts *)

Definition listUsers (limit offset : option Z) : M (list User.t) :=
  let limit := default_to 100 limit in
  let offset := default_to 0 offset in
  try_catch
    (query (fun d => limit_offset limit offset (select_users d)))
    (fun _ => setStatus 500 ;; throw "Failed to retrieve users").

Definition getUser (id : Z) : M User.t :=
  try_catch
    (user <- query (fun d => select_by_id User.id id (users d)) ;;
     match user with
     | None => setStatus 404 ;; throw "User not found"
     | Some user => ret user
     end)
    (fun error =>
       st <- getStatus ;;
       if status_is 404 st then throw error
       else setStatus 500 ;; throw "Failed to retrieve user").

Definition createUser (body : CreateUserRequest.t) (now : timestamp)
    : M User.t :=
  try_catch
    (lastInsertRowid <-
       run (insert_user (CreateUserRequest.name body)
              (CreateUserRequest.email body) now) ;;
     user <- query (fun d => select_by_id User.id lastInsertRowid (users d)) ;;
     match user with
     | None => setStatus 500 ;; throw "Failed to create user"
     | Some user => setStatus 201 ;; ret user
     end)
    (fun error =>
       if includes "UNIQUE constraint" error
       then setStatus 400 ;; throw "Email already exists"
       else setStatus 500 ;; throw "Failed to create user").

Definition updateUser (id : Z) (body : UpdateUserRequest.t) : M User.t :=
  try_catch
    (existingUser <- query (fun d => select_by_id User.id id (users d)) ;;
     match existingUser with
     | None => setStatus 404 ;; throw "User not found"
     | Some existingUser =>
         let updates : list UserAssignment := [] in
         let updates :=
           match UpdateUserRequest.name body with
           | Some v => updates ++ [SetName v]
           | None => updates
           end in
         let updates :=
           match UpdateUserRequest.email body with
           | Some v => updates ++ [SetEmail v]
           | None => updates
           end in
         if (List.length updates =? 0)%nat then ret existingUser
         else
           run (update_user updates id) ;;
           user <- query (fun d => select_by_id User.id id (users d)) ;;
           match user with
           | None => setStatus 500 ;; throw "Failed to update user"
           | Some user => ret user
           end
     end)
    (fun error =>
       st <- getStatus ;;
       if status_is 404 st then throw error
       else if includes "UNIQUE constraint" error
       then setStatus 400 ;; throw "Email already exists"
       else setStatus 500 ;; throw "Failed to update user").

Definition deleteUser (id : Z) : M unit :=
  try_catch
    (user <- query (fun d => select_by_id User.id id (users d)) ;;
     match user with
     | None => setStatus 404 ;; throw "User not found"
     | Some _ =>
         run (delete_user id) ;;
         setStatus 204
     end)
    (fun error =>
       st <- getStatus ;;
       if status_is 404 st then throw error
       else setStatus 500 ;; throw "Failed to delete user").

(** ** controllers/todo.controller.ts *)

Definition listTodos (user_id : option Z) (completed : option bool)
    (limit offset : option Z) : M (list Todo.t) :=
  let limit := default_to 100 limit in
  let offset := default_to 0 offset in
  try_catch
    (let conditions : list TodoCondition := [] in
     let conditions :=
       match user_id with
       | Some v => conditions ++ [UserIdIs v]
       | None => conditions
       end in
     let conditions :=
       match completed with
       | Some v => conditions ++ [CompletedIs (bit v)]
       | None => conditions
       end in
     query (fun d => limit_offset limit offset (select_todos conditions d)))
    (fun _ => setStatus 500 ;; throw "Failed to retrieve todos").

Definition getTodo (id : Z) : M Todo.t :=
  try_catch
    (todo <- query (fun d => select_by_id Todo.id id (todos d)) ;;
     match todo with
     | None => setStatus 404 ;; throw "Todo not found"
     | Some todo => ret todo
     end)
    (fun error =>
       st <- getStatus ;;
       if status_is 404 st then throw error
       else setStatus 500 ;; throw "Failed to retrieve todo").

Definition getUserTodos (userId : Z) (completed : option bool)
    : M (list Todo.t) :=
  try_catch
    (let conditions := [UserIdIs userId] in
     let conditions :=
       match completed with
       | Some v => conditions ++ [CompletedIs (bit v)]
       | None => conditions
       end in
     query (select_todos conditions))
    (fun _ => setStatus 500 ;; throw "Failed to retrieve user todos").

Definition createTodo (body : CreateTodoRequest.t) (now : timestamp)
    : M Todo.t :=
  try_catch
    (user <- query (fun d =>
                      select_by_id User.id (CreateTodoRequest.user_id body)
                        (users d)) ;;
     match user with
     | None => setStatus 400 ;; throw "User not found"
     | Some _ =>
         lastInsertRowid <-
           run (insert_todo (CreateTodoRequest.user_id body)
                  (CreateTodoRequest.title body)
                  (or_null (CreateTodoRequest.description body)) now) ;;
         todo <- query (fun d =>
                          select_by_id Todo.id lastInsertRowid (todos d)) ;;
         match todo with
         | None => setStatus 500 ;; throw "Failed to create todo"
         | Some todo => setStatus 201 ;; ret todo
         end
     end)
    (fun error =>
       st <- getStatus ;;
       if status_is 400 st then throw error
       else setStatus 500 ;; throw "Failed to create todo").

Definition updateTodo (id : Z) (body : UpdateTodoRequest.t) (now : timestamp)
    : M Todo.t :=
  try_catch
    (existingTodo <- query (fun d => select_by_id Todo.id id (todos d)) ;;
     match existingTodo with
     | None => setStatus 404 ;; throw "Todo not found"
     | Some existingTodo =>
         let updates : list TodoAssignment := [] in
         let updates :=
           match UpdateTodoRequest.title body with
           | Some v => updates ++ [SetTitle v]
           | None => updates
           end in
         let updates :=
           match UpdateTodoRequest.description body with
           | Some v => updates ++ [SetDescription v]
           | None => updates
           end in
         let updates :=
           match UpdateTodoRequest.completed body with
           | Some v => updates ++ [SetCompleted (bit v)]
           | None => updates
           end in
         if (List.length updates =? 0)%nat then ret existingTodo
         else
           let updates := updates ++ [SetUpdatedAtCurrentTimestamp] in
           run (update_todo updates id now) ;;
           todo <- query (fun d => select_by_id Todo.id id (todos d)) ;;
           match todo with
           | None => setStatus 500 ;; throw "Failed to update todo"
           | Some todo => ret todo
           end
     end)
    (fun error =>
       st <- getStatus ;;
       if status_is 404 st then throw error
       else setStatus 500 ;; throw "Failed to update todo").

Definition deleteTodo (id : Z) : M unit :=
  try_catch
    (todo <- query (fun d => select_by_id Todo.id id (todos d)) ;;
     match todo with
     | None => setStatus 404 ;; throw "Todo not found"
     | Some _ =>
         run (delete_todo id) ;;
         setStatus 204
     end)
    (fun error =>
       st <- getStatus ;;
       if status_is 404 st then throw error
       else setStatus 500 ;; throw "Failed to delete todo").

(** ** The routes

    The eleven routes the two controllers declare ([@Route], [@Get],
    [@Post], [@Put], [@Delete]), and the body each one answers with. *)

Inductive Request : Type :=
| GET_users (limit offset : option Z)
| GET_users_id (id : Z)
| POST_users (body : CreateUserRequest.t)
| PUT_users_id (id : Z) (body : UpdateUserRequest.t)
| DELETE_users_id (id : Z)
| GET_todos (user_id : option Z) (completed : option bool)
    (limit offset : option Z)
| GET_todos_id (id : Z)
| GET_todos_user (userId : Z) (completed : option bool)
| POST_todos (body : CreateTodoRequest.t)
| PUT_todos_id (id : Z) (body : UpdateTodoRequest.t)
| DELETE_todos_id (id : Z).

(** What a route sends back when its method returns. *)
Inductive Body : Type :=
| UserList (rows : list User.t)
| OneUser (row : User.t)
| TodoList (rows : list Todo.t)
| OneTodo (row : Todo.t)
| NoContent.

Definition answer {A : Type} (wrap : A -> Body) (r : Response A)
    : Response Body :=
  mkResponse (code r)
    match outcome r with
    | Return a => Return (wrap a)
    | Throw message => Throw message
    end
    (store r).

(** The request [req], received when the clock reads [now]. *)
Definition serve (now : timestamp) (req : Request) (d : Database)
    : Response Body :=
  match req with
  | GET_users limit offset => answer UserList (handle (listUsers limit offset) d)
  | GET_users_id id => answer OneUser (handle (getUser id) d)
  | POST_users body => answer OneUser (handle (createUser body now) d)
  | PUT_users_id id body => answer OneUser (handle (updateUser id body) d)
  | DELETE_users_id id => answer (fun _ => NoContent) (handle (deleteUser id) d)
  | GET_todos user_id completed limit offset =>
      answer TodoList (handle (listTodos user_id completed limit offset) d)
  | GET_todos_id id => answer OneTodo (handle (getTodo id) d)
  | GET_todos_user userId completed =>
      answer TodoList (handle (getUserTodos userId completed) d)
  | POST_todos body => answer OneTodo (handle (createTodo body now) d)
  | PUT_todos_id id body => answer OneTodo (handle (updateTodo id body now) d)
  | DELETE_todos_id id => answer (fun _ => NoContent) (handle (deleteTodo id) d)
  end.

(** The database after a sequence of requests, each with its arrival time. *)
Definition replay (requests : list (timestamp * Request)) (d : Database)
    : Database :=
  fold_left (fun d r => store (serve (fst r) (snd r) d)) requests d.

(** The arrival times never go back, starting from [t0]. *)
Fixpoint chronological (t0 : timestamp) (requests : list (timestamp * Request))
    : Prop :=
  match requests with
  | [] => True
  | (t, _) :: rest => t0 <= t /\ chronological t rest
  end.

(** The time of the last request of a sequence that starts at [t0]. *)
Definition last_time (t0 : timestamp) (requests : list (timestamp * Request))
    : timestamp :=
  fold_left (fun _ r => fst r) requests t0.

(** ** Predicates of the statements *)

(** Every todo references a stored user. *)
Definition referential_integrity (d : Database) : Prop :=
  forall t, In t (todos d) ->
    exists u, In u (users d) /\ User.id u = Todo.user_id t.

(** A todo update that names at least one of the three fields. *)
Definition names_a_field (body : UpdateTodoRequest.t) : Prop :=
  UpdateTodoRequest.title body <> None
  \/ UpdateTodoRequest.description body <> None
  \/ UpdateTodoRequest.completed body <> None.

(** The assignments [updateTodo] collects from a request body, in the
    order it collects them. *)
Definition fields_of (body : UpdateTodoRequest.t) : list TodoAssignment :=
  match UpdateTodoRequest.title body with
  | Some v => [SetTitle v]
  | None => []
  end
  ++ match UpdateTodoRequest.description body with
     | Some v => [SetDescription v]
     | None => []
     end
  ++ match UpdateTodoRequest.completed body with
     | Some v => [SetCompleted (bit v)]
     | None => []
     end.

(** No stored todo carries a timestamp later than [now]. *)
Definition no_later_than (now : timestamp) (d : Database) : Prop :=
  Forall (fun t => Todo.created_at t <= now /\ Todo.updated_at t <= now)
    (todos d).


(** A sequence of requests that are all [PUT /todos/{id}]. *)
Definition only_todo_updates (requests : list (timestamp * Request)) : Prop :=
  Forall (fun r => match snd r with
                   | PUT_todos_id _ _ => True
                   | _ => False
                   end)
    requests.

(** The PRIMARY KEY constraints: no two rows of a table share an id. *)
Definition primary_keys (d : Database) : Prop :=
  NoDup (map User.id (users d)) /\ NoDup (map Todo.id (todos d)).

(** Every todo stored under the id [i] belongs to [owner], and
    AUTOINCREMENT has passed [i]. *)
Definition owned_by (i owner : Z) (d : Database) : Prop :=
  i <= todos_seq d
  /\ forall t, In t (todos d) -> Todo.id t = i -> Todo.user_id t = owner.

(** No stored user has an id beyond the last one AUTOINCREMENT gave out
    for [users], and no stored todo names one as its owner. *)
Definition user_ids_issued (d : Database) : Prop :=
  (forall u, In u (users d) -> User.id u <= users_seq d)
  /\ (forall t, In t (todos d) -> Todo.user_id t <= users_seq d).

(** The assignments [updateUser] collects from a request body, in the
    order it collects them. *)
Definition user_fields_of (body : UpdateUserRequest.t)
    : list UserAssignment :=
  match UpdateUserRequest.name body with
  | Some v => [SetName v]
  | None => []
  end
  ++ match UpdateUserRequest.email body with
     | Some v => [SetEmail v]
     | None => []
     end.

(** The UNIQUE constraint on [users.email]: no two users share an email. *)
Definition unique_emails (d : Database) : Prop :=
  NoDup (map User.email (users d)).

(** No stored row has an id beyond the last one AUTOINCREMENT gave out
    for its table. *)
Definition ids_issued (d : Database) : Prop :=
  (forall u, In u (users d) -> User.id u <= users_seq d)
  /\ (forall t, In t (todos d) -> Todo.id t <= todos_seq d).

(** The routes by what they may write. *)
Definition writes_users (req : Request) : bool :=
  match req with
  | POST_users _ | PUT_users_id _ _ | DELETE_users_id _ => true
  | _ => false
  end.

Definition writes_todos (req : Request) : bool :=
  match req with
  | POST_todos _ | PUT_todos_id _ _ | DELETE_todos_id _ => true
  | _ => false
  end.

(** Every stored [completed] is 0 or 1. *)
Definition completed_is_a_bit (d : Database) : Prop :=
  Forall (fun t => Todo.completed t = 0 \/ Todo.completed t = 1) (todos d).

(** ** Sample stores, built by the controllers themselves *)

Definition ann : CreateUserRequest.t := CreateUserRequest.mk "Ann" "ann@x.com".
Definition bob : CreateUserRequest.t := CreateUserRequest.mk "Bob" "bob@x.com".
Definition buy_milk : CreateTodoRequest.t :=
  CreateTodoRequest.mk 1 "Buy milk" None.

(** [db] after Ann signed up at 10. *)
Definition db_ann : Database := store (handle (createUser ann 10) db).

(** ... and noted "Buy milk" at 20. *)
Definition db_milk : Database := store (handle (createTodo buy_milk 20) db_ann).

(** [db] after five sign-ups, ten seconds apart. *)
Definition db_five : Database :=
  replay
    [(10, POST_users ann);
     (20, POST_users bob);
     (30, POST_users (CreateUserRequest.mk "Cyd" "cyd@x.com"));
     (40, POST_users (CreateUserRequest.mk "Dee" "dee@x.com"));
     (50, POST_users (CreateUserRequest.mk "Eve" "eve@x.com"))]
    db.

(** The same tables on a connection that had run
    [PRAGMA foreign_keys = ON]. *)
Definition db_milk_enforced : Database :=
  {| foreign_keys := true;
     users := users db_milk;
     users_seq := users_seq db_milk;
     todos := todos db_milk;
     todos_seq := todos_seq db_milk |}.

(** * What the methods and the routes do *)

(** ** Rows and rowids *)

Section RowFacts.
Context {Row : Type}.
Variable rowid : Row -> Z.

Lemma select_by_id_some (i : Z) (rows : list Row) (r : Row) :
  select_by_id rowid i rows = Some r -> In r rows /\ rowid r = i.
Proof.
  unfold select_by_id. intros H.
  apply find_some in H. destruct H as [Hin Heq].
  split; [exact Hin | now apply Z.eqb_eq].
Qed.

Lemma select_by_id_none (i : Z) (rows : list Row) :
  select_by_id rowid i rows = None ->
  forall r, In r rows -> rowid r <> i.
Proof.
  unfold select_by_id. intros H r Hin Heq.
  apply (find_none _ _ H) in Hin. apply Z.eqb_neq in Hin. contradiction.
Qed.

Lemma select_by_id_exists (i : Z) (rows : list Row) :
  existsb (fun r => rowid r =? i) rows
  = match select_by_id rowid i rows with Some _ => true | None => false end.
Proof.
  unfold select_by_id.
  induction rows as [|r rows IH]; simpl; [reflexivity|].
  destruct (rowid r =? i); simpl; [reflexivity | exact IH].
Qed.

Lemma max_rowid_bound (rows : list Row) (r : Row) :
  In r rows -> rowid r <= max_rowid rowid rows.
Proof.
  induction rows as [|x rows IH]; simpl; [contradiction|].
  intros [-> | Hin]; [lia|].
  specialize (IH Hin). lia.
Qed.

Lemma next_rowid_fresh (seq : Z) (rows : list Row) (r : Row) :
  In r rows -> rowid r <> next_rowid rowid seq rows.
Proof.
  intros Hin. apply max_rowid_bound in Hin. unfold next_rowid. lia.
Qed.

(** A row appended under a rowid no other row has is the one read back. *)
Lemma select_by_id_appended (i : Z) (rows : list Row) (r : Row) :
  (forall x, In x rows -> rowid x <> i) ->
  rowid r = i ->
  select_by_id rowid i (rows ++ [r]) = Some r.
Proof.
  unfold select_by_id. intros Hfresh Hr.
  induction rows as [|x rows IH]; simpl.
  - rewrite Hr, Z.eqb_refl. reflexivity.
  - destruct (rowid x =? i) eqn:E.
    + apply Z.eqb_eq in E. exfalso. apply (Hfresh x); [now left | exact E].
    + apply IH. intros y Hy. apply Hfresh. now right.
Qed.

(** [UPDATE ... WHERE id = i] as seen by a lookup, for an update that
    keeps rowids. *)
Lemma select_by_id_updated (f : Row -> Row) (i j : Z) (rows : list Row) :
  (forall r, rowid (f r) = rowid r) ->
  select_by_id rowid j
    (map (fun r => if rowid r =? i then f r else r) rows)
  = if j =? i
    then option_map f (select_by_id rowid j rows)
    else select_by_id rowid j rows.
Proof.
  unfold select_by_id. intros Hf.
  induction rows as [|x rows IH]; simpl.
  - destruct (j =? i); reflexivity.
  - destruct (rowid x =? i) eqn:Exi.
    + rewrite Hf. destruct (rowid x =? j) eqn:Exj.
      * apply Z.eqb_eq in Exi, Exj.
        replace (j =? i) with true by (symmetry; apply Z.eqb_eq; lia).
        reflexivity.
      * exact IH.
    + destruct (rowid x =? j) eqn:Exj.
      * apply Z.eqb_neq in Exi. apply Z.eqb_eq in Exj.
        replace (j =? i) with false by (symmetry; apply Z.eqb_neq; lia).
        reflexivity.
      * exact IH.
Qed.

End RowFacts.

(** ** ORDER BY created_at DESC, LIMIT and OFFSET *)

Section Ordering.
Context {Row : Type}.
Variable created_at : Row -> timestamp.

Lemma insert_desc_perm (r : Row) (rows : list Row) :
  Permutation (r :: rows) (insert_desc created_at r rows).
Proof.
  induction rows as [|x rows IH]; simpl; [reflexivity|].
  destruct (created_at x <=? created_at r); [reflexivity|].
  rewrite perm_swap. now apply perm_skip.
Qed.

Lemma order_by_perm (rows : list Row) :
  Permutation rows (order_by_created_at_desc created_at rows).
Proof.
  induction rows as [|x rows IH]; simpl; [reflexivity|].
  rewrite <- insert_desc_perm. now apply perm_skip.
Qed.

Lemma insert_desc_sorted (r : Row) (rows : list Row) :
  StronglySorted (newest_first created_at) rows ->
  StronglySorted (newest_first created_at) (insert_desc created_at r rows).
Proof.
  induction 1 as [|x rows Hs IH Hx]; simpl.
  - constructor; [constructor | constructor].
  - destruct (created_at x <=? created_at r) eqn:E.
    + apply Z.leb_le in E.
      constructor; [constructor; assumption|].
      constructor; [exact E|].
      eapply Forall_impl; [|exact Hx].
      unfold newest_first. intros; lia.
    + apply Z.leb_gt in E.
      constructor; [exact IH|].
      apply (Permutation_Forall (insert_desc_perm r rows)).
      constructor; [unfold newest_first; lia | exact Hx].
Qed.

Lemma order_by_sorted (rows : list Row) :
  StronglySorted (newest_first created_at) (order_by_created_at_desc created_at rows).
Proof.
  induction rows as [|x rows IH]; simpl;
    [constructor | now apply insert_desc_sorted].
Qed.

End Ordering.

(** ** What each method does, case by case *)

Ltac run_method :=
  cbv [handle try_catch bind query run ret throw setStatus getStatus
       default_to];
  cbn [database status].

Lemma getUser_found (d : Database) (i : Z) (u : User.t) :
  select_by_id User.id i (users d) = Some u ->
  handle (getUser i) d = mkResponse None (Return u) d.
Proof. intros H. unfold getUser. run_method. rewrite H. reflexivity. Qed.

Lemma getUser_missing (d : Database) (i : Z) :
  select_by_id User.id i (users d) = None ->
  handle (getUser i) d = mkResponse (Some 404) (Throw "User not found") d.
Proof. intros H. unfold getUser. run_method. rewrite H. reflexivity. Qed.

Lemma email_taken_in (e : string) (rows : list User.t) (u : User.t) :
  In u rows -> User.email u = e -> email_taken e rows = true.
Proof.
  intros Hin He. unfold email_taken. apply existsb_exists.
  exists u. split; [exact Hin | now apply String.eqb_eq].
Qed.

Lemma createUser_conflict (d : Database) (body : CreateUserRequest.t)
    (now : timestamp) :
  email_taken (CreateUserRequest.email body) (users d) = true ->
  handle (createUser body now) d
  = mkResponse (Some 400) (Throw "Email already exists") d.
Proof.
  intros H. unfold createUser, insert_user. run_method.
  rewrite H. reflexivity.
Qed.

Lemma createUser_created (d : Database) (body : CreateUserRequest.t)
    (now : timestamp) :
  email_taken (CreateUserRequest.email body) (users d) = false ->
  let user :=
    User.mk (next_rowid User.id (users_seq d) (users d))
      (CreateUserRequest.name body) (CreateUserRequest.email body) now in
  handle (createUser body now) d
  = mkResponse (Some 201) (Return user)
      {| foreign_keys := foreign_keys d;
         users := users d ++ [user];
         users_seq := User.id user;
         todos := todos d;
         todos_seq := todos_seq d |}.
Proof.
  intros H user. unfold createUser, insert_user. run_method.
  rewrite H. cbn [users].
  rewrite (select_by_id_appended User.id _ (users d) user).
  - reflexivity.
  - intros x Hx. now apply next_rowid_fresh.
  - reflexivity.
Qed.

Lemma updateUser_no_fields (d : Database) (i : Z) (u : User.t) :
  select_by_id User.id i (users d) = Some u ->
  handle (updateUser i (UpdateUserRequest.mk None None)) d
  = mkResponse None (Return u) d.
Proof. intros H. unfold updateUser. run_method. rewrite H. reflexivity. Qed.

Lemma deleteUser_found (d : Database) (i : Z) (u : User.t) :
  select_by_id User.id i (users d) = Some u ->
  handle (deleteUser i) d
  = mkResponse (Some 204) (Return tt) (snd (delete_user i d)).
Proof. intros H. unfold deleteUser. run_method. rewrite H. reflexivity. Qed.

Lemma deleteUser_missing (d : Database) (i : Z) :
  select_by_id User.id i (users d) = None ->
  handle (deleteUser i) d = mkResponse (Some 404) (Throw "User not found") d.
Proof. intros H. unfold deleteUser. run_method. rewrite H. reflexivity. Qed.


Lemma getUserTodos_runs (d : Database) (userId : Z) (completed : option bool) :
  handle (getUserTodos userId completed) d
  = mkResponse None
      (Return (select_todos
                 (UserIdIs userId
                  :: match completed with
                     | Some v => [CompletedIs (bit v)]
                     | None => []
                     end)
                 d))
      d.
Proof. destruct completed; reflexivity. Qed.

Lemma listTodos_runs (d : Database) (user_id : option Z)
    (completed : option bool) (limit offset : option Z) :
  handle (listTodos user_id completed limit offset) d
  = mkResponse None
      (Return (limit_offset (default_to 100 limit) (default_to 0 offset)
                 (select_todos
                    (match user_id with
                     | Some v => [UserIdIs v]
                     | None => []
                     end
                     ++ match completed with
                        | Some v => [CompletedIs (bit v)]
                        | None => []
                        end)
                    d)))
      d.
Proof. destruct user_id, completed; reflexivity. Qed.

Lemma getTodo_missing (d : Database) (i : Z) :
  select_by_id Todo.id i (todos d) = None ->
  handle (getTodo i) d = mkResponse (Some 404) (Throw "Todo not found") d.
Proof. intros H. unfold getTodo. run_method. rewrite H. reflexivity. Qed.

Lemma getTodo_found (d : Database) (i : Z) (t : Todo.t) :
  select_by_id Todo.id i (todos d) = Some t ->
  handle (getTodo i) d = mkResponse None (Return t) d.
Proof. intros H. unfold getTodo. run_method. rewrite H. reflexivity. Qed.

Lemma createTodo_unknown_user (d : Database) (body : CreateTodoRequest.t)
    (now : timestamp) :
  select_by_id User.id (CreateTodoRequest.user_id body) (users d) = None ->
  handle (createTodo body now) d
  = mkResponse (Some 400) (Throw "User not found") d.
Proof. intros H. unfold createTodo. run_method. rewrite H. reflexivity. Qed.

Lemma createTodo_created (d : Database) (body : CreateTodoRequest.t)
    (now : timestamp) (u : User.t) :
  select_by_id User.id (CreateTodoRequest.user_id body) (users d) = Some u ->
  let todo :=
    Todo.mk (next_rowid Todo.id (todos_seq d) (todos d))
      (CreateTodoRequest.user_id body) (CreateTodoRequest.title body)
      (or_null (CreateTodoRequest.description body)) 0 now now in
  handle (createTodo body now) d
  = mkResponse (Some 201) (Return todo)
      {| foreign_keys := foreign_keys d;
         users := users d;
         users_seq := users_seq d;
         todos := todos d ++ [todo];
         todos_seq := Todo.id todo |}.
Proof.
  intros H todo. unfold createTodo, insert_todo. run_method.
  rewrite H. cbn [database status].
  rewrite select_by_id_exists, H, andb_false_r. cbn [todos database status].
  rewrite (select_by_id_appended Todo.id _ (todos d) todo).
  - reflexivity.
  - intros x Hx. now apply next_rowid_fresh.
  - reflexivity.
Qed.

Lemma updateTodo_missing (d : Database) (i : Z) (body : UpdateTodoRequest.t)
    (now : timestamp) :
  select_by_id Todo.id i (todos d) = None ->
  handle (updateTodo i body now) d
  = mkResponse (Some 404) (Throw "Todo not found") d.
Proof. intros H. unfold updateTodo. run_method. rewrite H. reflexivity. Qed.

Lemma updateTodo_no_fields (d : Database) (i : Z) (t : Todo.t)
    (now : timestamp) :
  select_by_id Todo.id i (todos d) = Some t ->
  handle (updateTodo i (UpdateTodoRequest.mk None None None) now) d
  = mkResponse None (Return t) d.
Proof. intros H. unfold updateTodo. run_method. rewrite H. reflexivity. Qed.

Lemma names_a_field_fields_of (body : UpdateTodoRequest.t) :
  names_a_field body <-> fields_of body <> [].
Proof.
  unfold names_a_field.
  destruct body as [[v1|] [v2|] [v3|]]; cbn; split; intros H;
    try discriminate; try (left; discriminate);
    try (right; left; discriminate); try (right; right; discriminate).
  - destruct H as [H | [H | H]]; now contradiction H.
  - now contradiction H.
Qed.

Lemma assign_todo_keeps (now : timestamp) (updates : list TodoAssignment)
    (t : Todo.t) :
  let t' := fold_left (assign_todo now) updates t in
  Todo.id t' = Todo.id t
  /\ Todo.user_id t' = Todo.user_id t
  /\ Todo.created_at t' = Todo.created_at t.
Proof.
  revert t. induction updates as [|a updates IH]; intros t; cbn.
  - auto.
  - destruct (IH (assign_todo now t a)) as (H1 & H2 & H3).
    cbn zeta in *. rewrite H1, H2, H3. destruct a; auto.
Qed.

Lemma updateTodo_with_fields (d : Database) (i : Z)
    (body : UpdateTodoRequest.t) (now : timestamp) (old : Todo.t) :
  select_by_id Todo.id i (todos d) = Some old ->
  fields_of body <> [] ->
  let updates := fields_of body ++ [SetUpdatedAtCurrentTimestamp] in
  handle (updateTodo i body now) d
  = mkResponse None (Return (fold_left (assign_todo now) updates old))
      (snd (update_todo updates i now d)).
Proof.
  intros H Hne updates. subst updates.
  assert (Hsel : forall updates,
             select_by_id Todo.id i (todos (snd (update_todo updates i now d)))
             = Some (fold_left (assign_todo now) updates old)).
  { intros updates. unfold update_todo. cbn [snd todos].
    rewrite (select_by_id_updated Todo.id
               (fun t => fold_left (assign_todo now) updates t)).
    - rewrite Z.eqb_refl, H. reflexivity.
    - intros r. apply assign_todo_keeps. }
  destruct body as [[v1|] [v2|] [v3|]]; cbn in Hne; try (now contradiction Hne);
    unfold updateTodo, update_todo; run_method; rewrite H;
    cbn [UpdateTodoRequest.title UpdateTodoRequest.description
         UpdateTodoRequest.completed app List.length Nat.eqb fields_of
         database status todos snd];
    match goal with
    | |- context [fold_left (assign_todo now) ?u old] => specialize (Hsel u)
    end;
    unfold update_todo in Hsel; cbn [snd todos] in Hsel;
    rewrite Hsel; reflexivity.
Qed.

Lemma deleteTodo_found (d : Database) (i : Z) (t : Todo.t) :
  select_by_id Todo.id i (todos d) = Some t ->
  handle (deleteTodo i) d
  = mkResponse (Some 204) (Return tt) (snd (delete_todo i d)).
Proof. intros H. unfold deleteTodo. run_method. rewrite H. reflexivity. Qed.

Lemma deleteTodo_missing (d : Database) (i : Z) :
  select_by_id Todo.id i (todos d) = None ->
  handle (deleteTodo i) d = mkResponse (Some 404) (Throw "Todo not found") d.
Proof. intros H. unfold deleteTodo. run_method. rewrite H. reflexivity. Qed.

(** ** Pages of a listing *)

Section Pages.
Context {Row : Type}.








End Pages.

(** ** Updates and the owner of a todo *)

Lemma fields_of_nil (body : UpdateTodoRequest.t) :
  fields_of body = [] -> body = UpdateTodoRequest.mk None None None.
Proof. destruct body as [[v1|] [v2|] [v3|]]; cbn; now try discriminate. Qed.

Lemma fields_of_dec (body : UpdateTodoRequest.t) :
  fields_of body = [] \/ fields_of body <> [].
Proof. destruct (fields_of body); [now left | right; discriminate]. Qed.

(** What [updateTodo] leaves in the database. *)
Lemma updateTodo_store (d : Database) (j : Z) (body : UpdateTodoRequest.t)
    (now : timestamp) :
  store (handle (updateTodo j body now) d) = d
  \/ store (handle (updateTodo j body now) d)
     = snd (update_todo (fields_of body ++ [SetUpdatedAtCurrentTimestamp])
              j now d).
Proof.
  destruct (select_by_id Todo.id j (todos d)) as [old|] eqn:E.
  - destruct (fields_of_dec body) as [Hnil | Hne].
    + apply fields_of_nil in Hnil. subst body.
      rewrite (updateTodo_no_fields d j old now E). now left.
    + rewrite (updateTodo_with_fields d j body now old E Hne). now right.
  - rewrite (updateTodo_missing d j body now E). now left.
Qed.

Lemma update_todo_keeps_owner (updates : list TodoAssignment) (j : Z)
    (now : timestamp) (d : Database) (i : Z) (t : Todo.t) :
  select_by_id Todo.id i (todos d) = Some t ->
  exists t',
    select_by_id Todo.id i (todos (snd (update_todo updates j now d))) = Some t'
    /\ Todo.user_id t' = Todo.user_id t.
Proof.
  intros H. unfold update_todo. cbn [snd todos].
  rewrite (select_by_id_updated Todo.id
             (fun t => fold_left (assign_todo now) updates t));
    [| intros r; apply assign_todo_keeps].
  rewrite H. destruct (i =? j); cbn [option_map]; eexists; split;
    try reflexivity.
  apply assign_todo_keeps.
Qed.

Lemma updateTodo_keeps_owner (d : Database) (j : Z)
    (body : UpdateTodoRequest.t) (now : timestamp) (i : Z) (t : Todo.t) :
  select_by_id Todo.id i (todos d) = Some t ->
  exists t',
    select_by_id Todo.id i (todos (store (handle (updateTodo j body now) d)))
    = Some t'
    /\ Todo.user_id t' = Todo.user_id t.
Proof.
  intros H. destruct (updateTodo_store d j body now) as [-> | ->].
  - now exists t.
  - now apply update_todo_keeps_owner.
Qed.

Lemma updates_keep_owner (requests : list (timestamp * Request))
    (d : Database) (i : Z) (t : Todo.t) :
  only_todo_updates requests ->
  select_by_id Todo.id i (todos d) = Some t ->
  exists t',
    select_by_id Todo.id i (todos (replay requests d)) = Some t'
    /\ Todo.user_id t' = Todo.user_id t.
Proof.
  intros Hall. revert d t.
  induction Hall as [|[now req] requests Hreq _ IH]; intros d t H; cbn.
  - now exists t.
  - destruct req; cbn in Hreq; try contradiction.
    cbn [serve answer store].
    destruct (updateTodo_keeps_owner d id body now i t H) as (t1 & H1 & E1).
    destruct (IH _ t1 H1) as (t' & H' & E').
    exists t'. split; [exact H' | congruence].
Qed.

(** ** Foreign keys *)

Ltac split_cases :=
  repeat (cbn [database status store code outcome fst snd foreign_keys
               users todos users_seq todos_seq];
          match goal with
          | |- context [match ?x with _ => _ end] =>
              lazymatch x with
              | match _ with _ => _ end => fail
              | (match _ with _ => _ end) _ => fail
              | _ => first [ is_var x; destruct x | destruct x eqn:? ]
              end
          end).

Ltac unfold_methods :=
  cbv [listUsers getUser createUser updateUser deleteUser
       listTodos getTodo getUserTodos createTodo updateTodo deleteTodo
       insert_user update_user delete_user insert_todo update_todo
       delete_todo];
  run_method.

Lemma filter_none {A : Type} (p : A -> bool) (l : list A) :
  (forall x, In x l -> p x = false) -> filter p l = [].
Proof.
  induction l as [|x l IH]; cbn; intros H; [reflexivity|].
  rewrite (H x (or_introl eq_refl)). apply IH. intros y Hy. apply H. now right.
Qed.

(** No route changes [PRAGMA foreign_keys]. *)
Lemma serve_foreign_keys (now : timestamp) (req : Request) (d : Database) :
  foreign_keys (store (serve now req d)) = foreign_keys d.
Proof.
  destruct req; cbn [serve answer store]; unfold_methods; split_cases;
    reflexivity.
Qed.



(** With foreign keys enforced, deleting a stored user deletes the user's
    todos, and [getUserTodos] then lists none. *)
Lemma deleteUser_cascades_when_enforced (d : Database) (u : User.t)
    (completed : option bool) :
  foreign_keys d = true ->
  select_by_id User.id (User.id u) (users d) = Some u ->
  let r := handle (deleteUser (User.id u)) d in
  code r = Some 204
  /\ outcome r = Return tt
  /\ (forall t, In t (todos (store r)) -> Todo.user_id t <> User.id u)
  /\ outcome (handle (getUserTodos (User.id u) completed) (store r))
     = Return [].
Proof.
  intros Hfk H r. subst r. rewrite (deleteUser_found d _ u H).
  cbn [code outcome store]. split; [reflexivity|]. split; [reflexivity|].
  assert (Hnone : forall t,
             In t (todos (snd (delete_user (User.id u) d))) ->
             Todo.user_id t <> User.id u).
  { unfold delete_user. cbn [snd todos].
    rewrite Hfk, select_by_id_exists, H. cbn [andb].
    intros t Ht. apply filter_In in Ht. destruct Ht as [_ Ht].
    apply negb_true_iff, Z.eqb_neq in Ht. exact Ht. }
  split; [exact Hnone|].
  rewrite getUserTodos_runs. cbn [outcome]. f_equal.
  unfold select_todos.
  rewrite filter_none; [reflexivity|].
  intros t Ht. cbn [forallb holds].
  specialize (Hnone t Ht). apply Z.eqb_neq in Hnone. now rewrite Hnone.
Qed.

Lemma deleteUser_cascades_when_enforced_witness :
  let r := handle (deleteUser 1) db_milk_enforced in
  code r = Some 204
  /\ outcome r = Return tt
  /\ (forall t, In t (todos (store r)) -> Todo.user_id t <> 1)
  /\ outcome (handle (getUserTodos 1 None) (store r)) = Return [].
Proof.
  exact (deleteUser_cascades_when_enforced db_milk_enforced
           (User.mk 1 "Ann" "ann@x.com" 10) None eq_refl eq_refl).
Defined.

(** Without, it deletes the user and leaves every todo where it was. *)
Lemma deleteUser_keeps_todos_when_not_enforced (d : Database) (i : Z) :
  foreign_keys d = false ->
  todos (store (handle (deleteUser i) d)) = todos d.
Proof.
  intros Hfk.
  destruct (select_by_id User.id i (users d)) as [u|] eqn:E.
  - rewrite (deleteUser_found d i u E). unfold delete_user.
    cbn [store snd todos]. now rewrite Hfk.
  - now rewrite (deleteUser_missing d i E).
Qed.

(** [getUserTodos] never consults [users]: it returns, with no status set
    (the route answers 200) and nothing written, the todos whose
    [user_id] is [userId], and whose [completed] is the given flag when
    one is given, newest first.  In a database where every todo
    references a stored user, a [userId] that no user has gets the empty
    list. *)
Lemma getUserTodos_lists_owned (d : Database) (userId : Z)
    (completed : option bool) :
  exists rows,
    handle (getUserTodos userId completed) d = mkResponse None (Return rows) d
    /\ http_status 200 None = 200
    /\ StronglySorted (newest_first Todo.created_at) rows
    /\ Permutation rows
         (filter (fun t => (Todo.user_id t =? userId)
                           && match completed with
                              | Some v => Todo.completed t =? bit v
                              | None => true
                              end)
            (todos d))
    /\ (referential_integrity d ->
        select_by_id User.id userId (users d) = None ->
        rows = []).
Proof.
  eexists. split; [apply getUserTodos_runs|]. split; [reflexivity|].
  split; [apply order_by_sorted|]. split.
  - unfold select_todos. rewrite <- order_by_perm.
    erewrite filter_ext; [reflexivity|].
    intros t. destruct completed; cbn; [|reflexivity].
    now rewrite andb_true_r.
  - intros Hri Hnone. unfold select_todos.
    rewrite filter_none; [reflexivity|].
    intros t Ht. cbn [forallb holds].
    destruct (Hri t Ht) as (u & Hu & Hid).
    pose proof (select_by_id_none User.id userId (users d) Hnone u Hu) as Hne.
    replace (Todo.user_id t =? userId) with false; [reflexivity|].
    symmetry. apply Z.eqb_neq. congruence.
Qed.


(** ** What one request can do to the tables *)

Lemma assign_user_keeps (updates : list UserAssignment) (u : User.t) :
  User.id (fold_left assign_user updates u) = User.id u.
Proof.
  revert u. induction updates as [|a updates IH]; intros u; cbn.
  - reflexivity.
  - rewrite IH. now destruct a.
Qed.

Lemma serve_users (now : timestamp) (req : Request) (d : Database) :
  let d' := store (serve now req d) in
  (users d' = users d /\ users_seq d' = users_seq d)
  \/ (exists i,
         users d' = delete_by_id User.id i (users d)
         /\ users_seq d' = users_seq d)
  \/ (exists u,
         users d' = users d ++ [u]
         /\ users_seq d' = User.id u
         /\ User.id u = next_rowid User.id (users_seq d) (users d))
  \/ (exists i updates,
         users d' = map (fun u => if User.id u =? i
                                  then fold_left assign_user updates u
                                  else u)
                      (users d)
         /\ users_seq d' = users_seq d).
Proof.
  destruct req; cbn [serve answer store]; unfold_methods; split_cases;
    first [ left; split; reflexivity
          | right; left; eexists; split; reflexivity
          | right; right; left; eexists; repeat split; reflexivity
          | right; right; right; eexists; eexists; split; reflexivity ].
Qed.

Lemma serve_todos (now : timestamp) (req : Request) (d : Database) :
  let d' := store (serve now req d) in
  (todos d' = todos d /\ todos_seq d' = todos_seq d)
  \/ (exists p, todos d' = filter p (todos d) /\ todos_seq d' = todos_seq d)
  \/ (exists t,
         todos d' = todos d ++ [t]
         /\ todos_seq d' = Todo.id t
         /\ Todo.id t = next_rowid Todo.id (todos_seq d) (todos d)
         /\ Todo.created_at t = now
         /\ Todo.updated_at t = now)
  \/ (exists i updates,
         todos d' = map (fun t => if Todo.id t =? i
                                  then fold_left (assign_todo now)
                                         (updates
                                          ++ [SetUpdatedAtCurrentTimestamp]) t
                                  else t)
                      (todos d)
         /\ todos_seq d' = todos_seq d).
Proof.
  destruct req; cbn [serve answer store]; unfold_methods; split_cases;
    first [ left; split; reflexivity
          | right; left; eexists; split; reflexivity
          | right; right; left; eexists; repeat split; reflexivity
          | right; right; right; eexists; eexists; split; reflexivity ].
Qed.

(** ** Invariants of the stored tables *)

Lemma NoDup_map_filter {A : Type} (key : A -> Z) (p : A -> bool)
    (l : list A) :
  NoDup (map key l) -> NoDup (map key (filter p l)).
Proof.
  induction l as [|x l IH]; cbn; intros H; [constructor|].
  inversion H as [|? ? Hnot Hnd]. destruct (p x); cbn; [|now apply IH].
  constructor; [|now apply IH].
  intros Hin. apply Hnot. apply in_map_iff in Hin.
  destruct Hin as (y & Hy & Hin). apply filter_In in Hin.
  apply in_map_iff. exists y. tauto.
Qed.

Lemma NoDup_map_appended {A : Type} (key : A -> Z) (l : list A) (y : A) :
  NoDup (map key l) ->
  (forall x, In x l -> key x <> key y) ->
  NoDup (map key (l ++ [y])).
Proof.
  intros Hnd Hfresh. rewrite map_app. cbn.
  apply NoDup_app; [exact Hnd | repeat constructor; tauto |].
  intros k Hin [<- | []]. apply in_map_iff in Hin.
  destruct Hin as (x & Hx & Hin). now apply (Hfresh x).
Qed.

Lemma map_key_updated {A : Type} (key : A -> Z) (f : A -> A) (i : Z)
    (l : list A) :
  (forall x, key (f x) = key x) ->
  map key (map (fun x => if key x =? i then f x else x) l) = map key l.
Proof.
  intros Hf. rewrite map_map. apply map_ext.
  intros x. destruct (key x =? i); [apply Hf | reflexivity].
Qed.

Lemma serve_primary_keys (now : timestamp) (req : Request) (d : Database) :
  primary_keys d -> primary_keys (store (serve now req d)).
Proof.
  intros [Hu Ht]. split.
  - destruct (serve_users now req d)
      as [[E _] | [(i & E & _) | [(u & E & _ & Hid) | (i & ups & E & _)]]];
      rewrite E.
    + exact Hu.
    + now apply NoDup_map_filter.
    + apply NoDup_map_appended; [exact Hu|].
      intros x Hx. rewrite Hid. now apply next_rowid_fresh.
    + rewrite (map_key_updated User.id (fun u => fold_left assign_user ups u));
        [exact Hu | intros x; apply assign_user_keeps].
  - destruct (serve_todos now req d)
      as [[E _] | [(p & E & _) | [(t & E & _ & Hid & _) | (i & ups & E & _)]]];
      rewrite E.
    + exact Ht.
    + now apply NoDup_map_filter.
    + apply NoDup_map_appended; [exact Ht|].
      intros x Hx. rewrite Hid. now apply next_rowid_fresh.
    + rewrite (map_key_updated Todo.id
                 (fun t => fold_left (assign_todo now)
                             (ups ++ [SetUpdatedAtCurrentTimestamp]) t));
        [exact Ht | intros x; apply assign_todo_keeps].
Qed.

(** Ids stay unique in every database built from [db]. *)
Lemma replay_primary_keys (requests : list (timestamp * Request))
    (d : Database) :
  primary_keys d -> primary_keys (replay requests d).
Proof.
  revert d. induction requests as [|[now req] requests IH]; intros d H; cbn.
  - exact H.
  - apply IH. now apply serve_primary_keys.
Qed.

Lemma db_primary_keys : primary_keys db.
Proof. split; constructor. Qed.

(** In every database built from [db], no two users and no two todos
    share an id. *)
Lemma ids_are_unique (requests : list (timestamp * Request)) :
  primary_keys (replay requests db).
Proof. apply replay_primary_keys, db_primary_keys. Qed.

Lemma serve_owned_by (now : timestamp) (req : Request) (d : Database)
    (i owner : Z) :
  owned_by i owner d -> owned_by i owner (store (serve now req d)).
Proof.
  intros [Hseq Hown].
  destruct (serve_todos now req d)
    as [[E Es] | [(p & E & Es) | [(t & E & Es & Hid & _) | (j & ups & E & Es)]]];
    unfold owned_by; rewrite E, Es.
  - now split.
  - split; [exact Hseq|]. intros t Ht. apply filter_In in Ht.
    now apply Hown.
  - split; [rewrite Hid; unfold next_rowid; lia|].
    intros x Hx Hxi. apply in_app_or in Hx. destruct Hx as [Hx | [<- | []]].
    + now apply Hown.
    + rewrite Hid in Hxi. unfold next_rowid in Hxi. lia.
  - split; [exact Hseq|]. intros x Hx Hxi.
    apply in_map_iff in Hx. destruct Hx as (y & <- & Hy).
    destruct (Todo.id y =? j); [|now apply Hown].
    destruct (assign_todo_keeps now (ups ++ [SetUpdatedAtCurrentTimestamp]) y)
      as (H1 & H2 & _).
    cbn zeta in *. rewrite H2. apply Hown; [exact Hy | congruence].
Qed.

Lemma replay_owned_by (requests : list (timestamp * Request)) (d : Database)
    (i owner : Z) :
  owned_by i owner d -> owned_by i owner (replay requests d).
Proof.
  revert d. induction requests as [|[now req] requests IH]; intros d H; cbn.
  - exact H.
  - apply IH. now apply serve_owned_by.
Qed.

(** ** Timestamps along a history *)

Lemma assign_todo_stamps (now : timestamp) (updates : list TodoAssignment)
    (t : Todo.t) :
  Todo.updated_at
    (fold_left (assign_todo now) (updates ++ [SetUpdatedAtCurrentTimestamp]) t)
  = now.
Proof. rewrite fold_left_app. reflexivity. Qed.

Lemma no_later_than_mono (t0 now : timestamp) (d : Database) :
  t0 <= now -> no_later_than t0 d -> no_later_than now d.
Proof.
  intros Hle. unfold no_later_than. apply Forall_impl. intros t [H1 H2]. lia.
Qed.

Lemma serve_no_later_than (t0 now : timestamp) (req : Request)
    (d : Database) :
  t0 <= now -> no_later_than t0 d ->
  no_later_than now (store (serve now req d)).
Proof.
  intros Hle H. apply (no_later_than_mono t0 now d Hle) in H.
  unfold no_later_than in *. rewrite Forall_forall in *.
  destruct (serve_todos now req d)
    as [[E _] | [(p & E & _) | [(t & E & _ & _ & Hc & Hu) | (j & ups & E & _)]]];
    rewrite E.
  - exact H.
  - intros x Hx. apply filter_In in Hx. now apply H.
  - intros x Hx. apply in_app_or in Hx. destruct Hx as [Hx | [<- | []]].
    + now apply H.
    + lia.
  - intros x Hx. apply in_map_iff in Hx. destruct Hx as (y & <- & Hy).
    destruct (Todo.id y =? j); [|now apply H].
    rewrite assign_todo_stamps.
    destruct (assign_todo_keeps now (ups ++ [SetUpdatedAtCurrentTimestamp]) y)
      as (_ & _ & H3).
    cbn zeta in H3. rewrite H3. specialize (H y Hy). lia.
Qed.

Lemma replay_no_later_than (t0 : timestamp)
    (requests : list (timestamp * Request)) (d : Database) :
  chronological t0 requests -> no_later_than t0 d ->
  no_later_than (last_time t0 requests) (replay requests d).
Proof.
  revert t0 d.
  induction requests as [|[now req] requests IH]; intros t0 d Hc H; cbn.
  - exact H.
  - destruct Hc as [Hle Hc]. apply IH; [exact Hc|].
    now apply (serve_no_later_than t0).
Qed.

(** In a database built from [db] by requests that arrive in order of
    time, no todo was updated later than the last request: the clock
    hypothesis of C5 holds at every later request. *)
Lemma updated_at_is_in_the_past (t0 now : timestamp)
    (requests : list (timestamp * Request)) (i : Z) (old : Todo.t) :
  chronological t0 requests ->
  last_time t0 requests <= now ->
  select_by_id Todo.id i (todos (replay requests db)) = Some old ->
  Todo.updated_at old <= now.
Proof.
  intros Hc Hle Hsel.
  apply select_by_id_some in Hsel. destruct Hsel as [Hin _].
  assert (H : no_later_than (last_time t0 requests) (replay requests db)).
  { apply replay_no_later_than; [exact Hc | constructor]. }
  unfold no_later_than in H. rewrite Forall_forall in H.
  specialize (H old Hin). lia.
Qed.

(** Along a history served in order of time, an update that names a field
    never turns [updated_at] back: it returns the todo with [updated_at]
    at the clock reading, which is no earlier than the one it had. *)
Lemma updateTodo_refreshes_updated_at (t0 now : timestamp)
    (requests : list (timestamp * Request)) (i : Z)
    (body : UpdateTodoRequest.t) (old : Todo.t) :
  chronological t0 requests ->
  last_time t0 requests <= now ->
  select_by_id Todo.id i (todos (replay requests db)) = Some old ->
  names_a_field body ->
  exists new,
    outcome (handle (updateTodo i body now) (replay requests db)) = Return new
    /\ Todo.updated_at new = now
    /\ Todo.updated_at old <= Todo.updated_at new.
Proof.
  intros Hc Hle Hsel Hf.
  pose proof (updated_at_is_in_the_past t0 now requests i old Hc Hle Hsel)
    as Hpast.
  apply names_a_field_fields_of in Hf.
  rewrite (updateTodo_with_fields _ i body now old Hsel Hf).
  cbn [outcome]. eexists. split; [reflexivity|].
  rewrite assign_todo_stamps. split; [reflexivity | exact Hpast].
Qed.

Lemma updateTodo_refreshes_updated_at_witness :
  exists new,
    outcome (handle (updateTodo 1 (UpdateTodoRequest.mk None None (Some true))
                       30)
               (replay [(10, POST_users ann); (20, POST_todos buy_milk)] db))
    = Return new
    /\ Todo.updated_at new = 30
    /\ 20 <= Todo.updated_at new.
Proof.
  apply (updateTodo_refreshes_updated_at 0 30
           [(10, POST_users ann); (20, POST_todos buy_milk)] 1
           (UpdateTodoRequest.mk None None (Some true))
           (Todo.mk 1 1 "Buy milk" None 0 20 20)).
  - cbn. lia.
  - cbn. lia.
  - reflexivity.
  - right. right. discriminate.
Defined.

(** ** Referential integrity, were foreign keys enforced *)

Lemma serve_effect (now : timestamp) (req : Request) (d : Database) :
  let d' := store (serve now req d) in
  d' = d
  \/ (todos d' = todos d /\ exists u, users d' = users d ++ [u])
  \/ (todos d' = todos d
      /\ exists i updates,
           users d' = map (fun u => if User.id u =? i
                                    then fold_left assign_user updates u
                                    else u)
                        (users d))
  \/ (exists i,
         users d' = delete_by_id User.id i (users d)
         /\ todos d' = if foreign_keys d
                       then filter (fun t => negb (Todo.user_id t =? i)) (todos d)
                       else todos d)
  \/ (users d' = users d
      /\ exists t u,
           todos d' = todos d ++ [t]
           /\ In u (users d) /\ User.id u = Todo.user_id t)
  \/ (users d' = users d
      /\ exists i updates,
           todos d' = map (fun t => if Todo.id t =? i
                                    then fold_left (assign_todo now) updates t
                                    else t)
                        (todos d))
  \/ (users d' = users d /\ exists p, todos d' = filter p (todos d)).
Proof.
  destruct req; cbn [serve answer store]; unfold_methods; split_cases;
    try (left; destruct d; reflexivity);
    try (right; left; split; [reflexivity | eexists; reflexivity]);
    try (right; right; left; split;
         [reflexivity | eexists; eexists; reflexivity]).
  all: try (do 3 right; left; eexists; split; reflexivity).
  all: try (exfalso; cbn [andb] in *; congruence).
  all: try (exfalso;
            match goal with
            | H : context [existsb _ _] |- _ =>
                rewrite select_by_id_exists in H
            end;
            match goal with
            | H : select_by_id _ _ _ = _, H' : context [select_by_id] |- _ =>
                rewrite H in H'
            end; cbn [andb negb] in *; congruence).
  all: try (do 4 right; left; split; [reflexivity|];
       match goal with
       | H : select_by_id User.id _ _ = Some ?u |- _ =>
           apply select_by_id_some in H; destruct H as [? ?];
           eexists; exists u; split; [reflexivity | split; assumption]
       end).
  all: try (do 5 right; left; split;
            [reflexivity | eexists; eexists; reflexivity]).
  all: try (do 6 right; split; [reflexivity | eexists; reflexivity]).
Qed.

(** On a connection that enforces foreign keys, no request leaves a todo
    without its user. *)
Lemma serve_referential_integrity (now : timestamp) (req : Request)
    (d : Database) :
  foreign_keys d = true ->
  referential_integrity d ->
  referential_integrity (store (serve now req d)).
Proof.
  intros Hfk Hri.
  destruct (serve_effect now req d)
    as [E | [[Et (x & Eu)] | [[Et (i & ups & Eu)] | [(i & Eu & Et)
       | [[Eu (x & u & Et & Hu & Hid)] | [[Eu (i & ups & Et)]
       | [Eu (p & Et)]]]]]]];
    unfold referential_integrity; try rewrite E; try rewrite Eu;
    try rewrite Et; try exact Hri.
  - intros t Ht. destruct (Hri t Ht) as (u & Hu & Hid).
    exists u. split; [apply in_or_app; now left | exact Hid].
  - intros t Ht. destruct (Hri t Ht) as (u & Hu & Hid).
    exists (if User.id u =? i then fold_left assign_user ups u else u).
    split.
    + apply in_map_iff. now exists u.
    + destruct (User.id u =? i); [rewrite assign_user_keeps|]; exact Hid.
  - rewrite Hfk. intros t Ht. apply filter_In in Ht. destruct Ht as [Ht Hne].
    destruct (Hri t Ht) as (u & Hu & Hid).
    exists u. split; [|exact Hid].
    apply filter_In. split; [exact Hu|]. now rewrite Hid.
  - intros t Ht. apply in_app_or in Ht. destruct Ht as [Ht | [<- | []]].
    + now apply Hri.
    + now exists u.
  - intros t Ht. apply in_map_iff in Ht. destruct Ht as (y & <- & Hy).
    destruct (Hri y Hy) as (u & Hu & Hid).
    exists u. split; [exact Hu|].
    destruct (Todo.id y =? i); [|exact Hid].
    destruct (assign_todo_keeps now ups y) as (_ & H2 & _).
    cbn zeta in H2. now rewrite H2.
  - intros t Ht. apply filter_In in Ht. now apply Hri.
Qed.

(** ... and so does no sequence of requests. *)
Lemma replay_referential_integrity (requests : list (timestamp * Request))
    (d : Database) :
  foreign_keys d = true ->
  referential_integrity d ->
  referential_integrity (replay requests d).
Proof.
  revert d. induction requests as [|[now req] requests IH]; intros d Hfk H; cbn.
  - exact H.
  - apply IH; [now rewrite serve_foreign_keys|].
    now apply serve_referential_integrity.
Qed.

Lemma replay_referential_integrity_witness :
  referential_integrity
    (replay [(30, DELETE_users_id 1); (40, POST_users bob)] db_milk_enforced).
Proof.
  apply replay_referential_integrity; [reflexivity|].
  intros t [<- | []].
  exists (User.mk 1 "Ann" "ann@x.com" 10). split; [now left | reflexivity].
Defined.

(** ** Ids that never were a user's *)

Lemma serve_user_ids_issued (now : timestamp) (req : Request) (d : Database) :
  user_ids_issued d -> user_ids_issued (store (serve now req d)).
Proof.
  intros [Hu Ht].
  assert (Hmono : users_seq d <= users_seq (store (serve now req d))).
  { destruct (serve_users now req d)
      as [[_ E] | [(i & _ & E) | [(u & _ & E & Hid) | (i & ups & _ & E)]]];
      rewrite E; try lia.
    rewrite Hid. unfold next_rowid. lia. }
  split.
  - destruct (serve_users now req d)
      as [[E Es] | [(i & E & Es) | [(u & E & Es & Hid) | (i & ups & E & Es)]]];
      rewrite E, Es.
    + exact Hu.
    + intros x Hx. apply filter_In in Hx. now apply Hu.
    + intros x Hx. apply in_app_or in Hx. destruct Hx as [Hx | [<- | []]].
      * specialize (Hu x Hx). rewrite Hid. unfold next_rowid. lia.
      * lia.
    + intros x Hx. apply in_map_iff in Hx. destruct Hx as (y & <- & Hy).
      destruct (User.id y =? i); [rewrite assign_user_keeps|]; now apply Hu.
  - destruct (serve_effect now req d)
      as [E | [[Et _] | [[Et _] | [(i & _ & Et)
         | [[_ (x & u & Et & Hin & Hid)] | [[_ (i & ups & Et)]
         | [_ (p & Et)]]]]]]].
    + rewrite E. exact Ht.
    + rewrite Et. intros t Hin. specialize (Ht t Hin). lia.
    + rewrite Et. intros t Hin. specialize (Ht t Hin). lia.
    + rewrite Et. intros t Hin.
      assert (In t (todos d)) as Hin'
          by (destruct (foreign_keys d); [apply filter_In in Hin|]; tauto).
      specialize (Ht t Hin'). lia.
    + rewrite Et. intros t Hint. apply in_app_or in Hint.
      destruct Hint as [Hint | [<- | []]].
      * specialize (Ht t Hint). lia.
      * rewrite <- Hid. specialize (Hu u Hin). lia.
    + rewrite Et. intros t Hin. apply in_map_iff in Hin.
      destruct Hin as (y & <- & Hy). specialize (Ht y Hy).
      destruct (Todo.id y =? i); [|lia].
      destruct (assign_todo_keeps now ups y) as (_ & H2 & _).
      cbn zeta in H2. rewrite H2. lia.
    + rewrite Et. intros t Hin. apply filter_In in Hin.
      destruct Hin as [Hin _]. specialize (Ht t Hin). lia.
Qed.

Lemma replay_user_ids_issued (requests : list (timestamp * Request))
    (d : Database) :
  user_ids_issued d -> user_ids_issued (replay requests d).
Proof.
  revert d. induction requests as [|[now req] requests IH]; intros d H; cbn.
  - exact H.
  - apply IH. now apply serve_user_ids_issued.
Qed.

(** In every database built from [db], [getUserTodos] answers an id that
    no user ever had (one beyond the last id given out) with the empty
    list: what it can return for an id without a user are the todos of a
    deleted user only. *)
Lemma getUserTodos_never_a_user (requests : list (timestamp * Request))
    (userId : Z) (completed : option bool) :
  users_seq (replay requests db) < userId ->
  handle (getUserTodos userId completed) (replay requests db)
  = mkResponse None (Return []) (replay requests db).
Proof.
  intros Hnew. rewrite getUserTodos_runs. do 2 f_equal.
  unfold select_todos. rewrite filter_none; [reflexivity|].
  intros t Ht. cbn [forallb holds].
  assert (H : user_ids_issued (replay requests db)).
  { apply replay_user_ids_issued. split; intros x []. }
  destruct H as [_ H]. specialize (H t Ht).
  replace (Todo.user_id t =? userId) with false; [reflexivity|].
  symmetry. apply Z.eqb_neq. lia.
Qed.

Lemma getUserTodos_never_a_user_witness :
  handle (getUserTodos 2 None) (store (handle (deleteUser 1) db_milk))
  = mkResponse None (Return []) (store (handle (deleteUser 1) db_milk)).
Proof.
  apply (getUserTodos_never_a_user
           [(10, POST_users ann); (20, POST_todos buy_milk);
            (30, DELETE_users_id 1)] 2 None).
  cbn. lia.
Defined.

(** * The properties of the specification *)

(** ** C1: Deleting a user *)

(** C1.  The specification has the todos of a deleted user deleted with
    the user, so that [getUserTodos] lists none afterwards.  On [db],
    which never turns foreign keys on, they stay: Ann signs up, notes
    "Buy milk", and is deleted with status 204; her todo is still stored,
    and [getUserTodos 1] returns it. *)
Theorem deleteUser_leaves_todos :
  let r := handle (deleteUser 1) db_milk in
  select_by_id User.id 1 (users db_milk) = Some (User.mk 1 "Ann" "ann@x.com" 10)
  /\ code r = Some 204
  /\ outcome r = Return tt
  /\ users (store r) = []
  /\ todos (store r) = [Todo.mk 1 1 "Buy milk" None 0 20 20]
  /\ outcome (handle (getUserTodos 1 None) (store r))
     = Return [Todo.mk 1 1 "Buy milk" None 0 20 20].
Proof. repeat split. Qed.

(** ** C2: Duplicate email *)

(** C2.  If a user [first] is stored (and is the one [getUser] finds under
    its id), creating a user with the same email and any name sets status
    400 and throws "Email already exists", writes nothing, and [getUser]
    on the id of [first] still returns [first], field for field. *)
Theorem createUser_duplicate_email (d : Database) (first : User.t)
    (n : string) (now : timestamp) :
  select_by_id User.id (User.id first) (users d) = Some first ->
  let r := handle (createUser (CreateUserRequest.mk n (User.email first)) now) d in
  code r = Some 400
  /\ outcome r = Throw "Email already exists"
  /\ store r = d
  /\ handle (getUser (User.id first)) (store r)
     = mkResponse None (Return first) (store r).
Proof.
  intros H r. subst r.
  rewrite createUser_conflict.
  - cbn [code outcome store]. repeat split. now apply getUser_found.
  - cbn [CreateUserRequest.email].
    apply select_by_id_some in H. destruct H as [Hin _].
    now apply (email_taken_in _ _ first).
Qed.

Lemma createUser_duplicate_email_witness :
  let first := User.mk 1 "Ann" "ann@x.com" 10 in
  let r := handle (createUser (CreateUserRequest.mk "Bob" "ann@x.com") 11)
             db_ann in
  code r = Some 400
  /\ outcome r = Throw "Email already exists"
  /\ store r = db_ann
  /\ handle (getUser 1) (store r) = mkResponse None (Return first) (store r).
Proof.
  exact (createUser_duplicate_email db_ann (User.mk 1 "Ann" "ann@x.com" 10)
           "Bob" 11 eq_refl).
Defined.

(** ** C3: Creating a todo *)


(** ** C4: Updates that name no field *)

(** C4.  For a stored user, and for a stored todo, an update whose body
    names no field returns the stored entity as it is: the method sets no
    status (the route answers 200), throws nothing, and leaves the
    database, and with it the todo's [updated_at], untouched. *)
Theorem update_without_fields (d : Database) (i : Z) (now : timestamp) :
  (forall u,
      select_by_id User.id i (users d) = Some u ->
      let r := handle (updateUser i (UpdateUserRequest.mk None None)) d in
      outcome r = Return u /\ http_status 200 (code r) = 200 /\ store r = d)
  /\ (forall t,
         select_by_id Todo.id i (todos d) = Some t ->
         let r :=
           handle (updateTodo i (UpdateTodoRequest.mk None None None) now) d in
         outcome r = Return t
         /\ http_status 200 (code r) = 200
         /\ store r = d
         /\ (forall t',
                select_by_id Todo.id i (todos (store r)) = Some t' ->
                Todo.updated_at t' = Todo.updated_at t)).
Proof.
  split.
  - intros u H r. subst r. rewrite (updateUser_no_fields d i u H).
    repeat split.
  - intros t H r. subst r. rewrite (updateTodo_no_fields d i t now H).
    cbn [outcome code store]. repeat split.
    intros t' H'. rewrite H in H'. now inversion H'.
Qed.

Lemma update_without_fields_witness :
  (let r := handle (updateUser 1 (UpdateUserRequest.mk None None)) db_milk in
   outcome r = Return (User.mk 1 "Ann" "ann@x.com" 10)
   /\ http_status 200 (code r) = 200 /\ store r = db_milk)
  /\ (let r :=
        handle (updateTodo 1 (UpdateTodoRequest.mk None None None) 30) db_milk in
      outcome r = Return (Todo.mk 1 1 "Buy milk" None 0 20 20)
      /\ http_status 200 (code r) = 200 /\ store r = db_milk).
Proof.
  destruct (update_without_fields db_milk 1 30) as [Hu Ht].
  split.
  - exact (Hu _ eq_refl).
  - destruct (Ht _ eq_refl) as (H1 & H2 & H3 & _). auto.
Defined.

(** ** C5: Updates that name a field *)

(** C5.  For a stored todo [old] and a body that names at least one of
    title, description and completed, [updateTodo] at clock reading [now]
    returns, and stores under the same id, the todo whose named fields
    are the body's, whose other fields ([id], [user_id], [created_at] and
    the fields not named) are those of [old], and whose [updated_at] is
    [now]; so, the clock not having gone back since [old] was written,
    the new [updated_at] is no earlier than the old one. *)
Theorem updateTodo_applies_fields (d : Database) (i : Z)
    (body : UpdateTodoRequest.t) (now : timestamp) (old : Todo.t) :
  select_by_id Todo.id i (todos d) = Some old ->
  names_a_field body ->
  let r := handle (updateTodo i body now) d in
  exists new,
    outcome r = Return new
    /\ http_status 200 (code r) = 200
    /\ select_by_id Todo.id i (todos (store r)) = Some new
    /\ Todo.title new
       = default_to (Todo.title old) (UpdateTodoRequest.title body)
    /\ Todo.description new
       = match UpdateTodoRequest.description body with
         | Some v => Some v
         | None => Todo.description old
         end
    /\ Todo.completed new
       = match UpdateTodoRequest.completed body with
         | Some v => bit v
         | None => Todo.completed old
         end
    /\ Todo.id new = Todo.id old
    /\ Todo.user_id new = Todo.user_id old
    /\ Todo.created_at new = Todo.created_at old
    /\ Todo.updated_at new = now
    /\ (Todo.updated_at old <= now
        -> Todo.updated_at old <= Todo.updated_at new).
Proof.
  intros H Hf r. subst r.
  apply names_a_field_fields_of in Hf.
  rewrite (updateTodo_with_fields d i body now old H Hf).
  cbn [outcome code store].
  eexists. split; [reflexivity|]. split; [reflexivity|].
  split.
  { unfold update_todo. cbn [snd todos].
    rewrite (select_by_id_updated Todo.id
               (fun t => fold_left (assign_todo now)
                           (fields_of body ++ [SetUpdatedAtCurrentTimestamp])
                           t)).
    - rewrite Z.eqb_refl, H. reflexivity.
    - intros t. apply assign_todo_keeps. }
  destruct body as [[v1|] [v2|] [v3|]]; cbn; repeat split; auto.
Qed.

Lemma updateTodo_applies_fields_witness :
  let r := handle (updateTodo 1 (UpdateTodoRequest.mk None None (Some true)) 30)
             db_milk in
  exists new,
    outcome r = Return new
    /\ http_status 200 (code r) = 200
    /\ select_by_id Todo.id 1 (todos (store r)) = Some new
    /\ Todo.title new = "Buy milk"
    /\ Todo.description new = None
    /\ Todo.completed new = 1
    /\ Todo.id new = 1
    /\ Todo.user_id new = 1
    /\ Todo.created_at new = 20
    /\ Todo.updated_at new = 30
    /\ (20 <= 30 -> 20 <= Todo.updated_at new).
Proof.
  exact (updateTodo_applies_fields db_milk 1
           (UpdateTodoRequest.mk None None (Some true)) 30
           (Todo.mk 1 1 "Buy milk" None 0 20 20) eq_refl
           (or_intror (or_intror (fun H => eq_ind (Some true)
              (fun o => match o with Some _ => True | None => False end)
              I None H)))).
Defined.

(** ** C6: Listing users *)




(** ** C7: Names and titles *)

(** C7, as stated, fails: [createUser] stores a user whose name is the
    empty string, and [createTodo] a todo whose title is. *)
Lemma create_stores_empty_text :
  (let r := handle (createUser (CreateUserRequest.mk "" "ann@x.com") 10) db in
   code r = Some 201
   /\ outcome r = Return (User.mk 1 "" "ann@x.com" 10)
   /\ users (store r) = [User.mk 1 "" "ann@x.com" 10])
  /\ (let r := handle (createTodo (CreateTodoRequest.mk 1 "" None) 20) db_ann in
      code r = Some 201
      /\ outcome r = Return (Todo.mk 1 1 "" None 0 20 20)
      /\ todos (store r) = [Todo.mk 1 1 "" None 0 20 20]).
Proof. repeat split. Qed.

(** C7, amended.  A create method that returns has appended exactly one
    row, the one it returns, and that row carries the name (for a user)
    or the title (for a todo) of the request body as it was given, the
    empty string included. *)
Theorem create_stores_text_as_given (d : Database) (now : timestamp) :
  (forall body user,
      outcome (handle (createUser body now) d) = Return user ->
      users (store (handle (createUser body now) d)) = users d ++ [user]
      /\ User.name user = CreateUserRequest.name body)
  /\ (forall body todo,
         outcome (handle (createTodo body now) d) = Return todo ->
         todos (store (handle (createTodo body now) d)) = todos d ++ [todo]
         /\ Todo.title todo = CreateTodoRequest.title body).
Proof.
  split.
  - intros body user.
    destruct (email_taken (CreateUserRequest.email body) (users d)) eqn:E.
    + rewrite (createUser_conflict d body now E). discriminate.
    + rewrite (createUser_created d body now E). cbn [outcome store users].
      intros H. inversion H. split; reflexivity.
  - intros body todo.
    destruct (select_by_id User.id (CreateTodoRequest.user_id body) (users d))
      as [u|] eqn:E.
    + rewrite (createTodo_created d body now u E). cbn [outcome store todos].
      intros H. inversion H. split; reflexivity.
    + rewrite (createTodo_unknown_user d body now E). discriminate.
Qed.

Lemma create_stores_text_as_given_witness :
  (users (store (handle (createUser ann 10) db)) = [User.mk 1 "Ann" "ann@x.com" 10]
   /\ User.name (User.mk 1 "Ann" "ann@x.com" 10) = "Ann")
  /\ (todos (store (handle (createTodo buy_milk 20) db_ann))
      = [Todo.mk 1 1 "Buy milk" None 0 20 20]
      /\ Todo.title (Todo.mk 1 1 "Buy milk" None 0 20 20) = "Buy milk").
Proof.
  destruct (create_stores_text_as_given db 10) as [Hu _].
  destruct (create_stores_text_as_given db_ann 20) as [_ Ht].
  split.
  - exact (Hu ann (User.mk 1 "Ann" "ann@x.com" 10) eq_refl).
  - exact (Ht buy_milk (Todo.mk 1 1 "Buy milk" None 0 20 20) eq_refl).
Defined.

(** ** C8: Ownership *)

(** C8.  A todo that [createTodo] returned keeps the [user_id] of the
    body it was created from.  Through every sequence of
    [PUT /todos/{id}] requests (to this todo or to others, with any
    bodies, at any times) the todo stays stored under its id, with that
    [user_id]: after the whole sequence, and so after each of its updates.
    And through every sequence of requests of any kind, whatever is then
    stored under the id has that [user_id]: no operation changes
    ownership. *)
Theorem todo_owner_is_immutable (d : Database) (body : CreateTodoRequest.t)
    (now : timestamp) (todo : Todo.t) :
  outcome (handle (createTodo body now) d) = Return todo ->
  let d' := store (handle (createTodo body now) d) in
  (forall requests,
      only_todo_updates requests ->
      exists todo',
        select_by_id Todo.id (Todo.id todo) (todos (replay requests d'))
        = Some todo'
        /\ Todo.user_id todo' = CreateTodoRequest.user_id body)
  /\ (forall requests todo',
         select_by_id Todo.id (Todo.id todo) (todos (replay requests d'))
         = Some todo' ->
         Todo.user_id todo' = CreateTodoRequest.user_id body).
Proof.
  intros Hcreated d'. subst d'.
  destruct (select_by_id User.id (CreateTodoRequest.user_id body) (users d))
    as [u|] eqn:E;
    [| rewrite (createTodo_unknown_user d body now E) in Hcreated;
       discriminate].
  rewrite (createTodo_created d body now u E) in *.
  cbn [outcome store] in *. inversion Hcreated as [Htodo].
  rewrite Htodo. split.
  - intros requests Hall.
    destruct (updates_keep_owner requests
                {| foreign_keys := foreign_keys d;
                   users := users d;
                   users_seq := users_seq d;
                   todos := todos d ++ [todo];
                   todos_seq := Todo.id todo |}
                (Todo.id todo) todo Hall) as (todo' & H1 & H2).
    + cbn [todos]. apply select_by_id_appended; [|reflexivity].
      intros x Hx. rewrite <- Htodo. cbn [Todo.id].
      now apply next_rowid_fresh.
    + exists todo'. split; [exact H1|].
      rewrite H2, <- Htodo. reflexivity.
  - intros requests todo' Hsel.
    apply select_by_id_some in Hsel. destruct Hsel as [Hin Hid].
    refine (proj2 (replay_owned_by requests _ (Todo.id todo)
                     (CreateTodoRequest.user_id body) _) todo' Hin Hid).
    split; cbn [todos_seq todos]; [lia|].
    intros x Hx Hxi. apply in_app_or in Hx. destruct Hx as [Hx | [<- | []]].
    + exfalso. apply (next_rowid_fresh Todo.id (todos_seq d) (todos d) x Hx).
      rewrite Hxi, <- Htodo. reflexivity.
    + rewrite <- Htodo. reflexivity.
Qed.

Lemma todo_owner_is_immutable_witness :
  (exists todo',
      select_by_id Todo.id 1
        (todos (replay
                  [(30, PUT_todos_id 1 (UpdateTodoRequest.mk
                                          (Some "Buy oat milk") None None));
                   (40, PUT_todos_id 1 (UpdateTodoRequest.mk None None
                                          (Some true)))]
                  db_milk))
      = Some todo'
      /\ Todo.user_id todo' = 1)
  /\ (forall todo',
         select_by_id Todo.id 1
           (todos (replay
                     [(30, POST_users bob);
                      (40, POST_todos (CreateTodoRequest.mk 2 "Walk" None));
                      (50, PUT_todos_id 1 (UpdateTodoRequest.mk None None
                                             (Some true)))]
                     db_milk))
         = Some todo' ->
         Todo.user_id todo' = 1).
Proof.
  destruct (todo_owner_is_immutable db_ann buy_milk 20
              (Todo.mk 1 1 "Buy milk" None 0 20 20) eq_refl) as [Hup Hany].
  split.
  - apply (Hup [(30, PUT_todos_id 1 (UpdateTodoRequest.mk
                                       (Some "Buy oat milk") None None));
                (40, PUT_todos_id 1 (UpdateTodoRequest.mk None None
                                       (Some true)))]).
    repeat constructor.
  - apply (Hany [(30, POST_users bob);
                 (40, POST_todos (CreateTodoRequest.mk 2 "Walk" None));
                 (50, PUT_todos_id 1 (UpdateTodoRequest.mk None None
                                        (Some true)))]).
Defined.

(** ** C9: The todos of a user *)

(** C9.  The specification has [getUserTodos] answer a [userId] that no
    stored user has with the empty list.  After Ann signed up, noted
    "Buy milk" and was deleted, no user has id 1 ([getUser 1] sets 404),
    and [getUserTodos 1] returns the todo she left behind. *)
Theorem getUserTodos_unknown_user_not_empty :
  let d := store (handle (deleteUser 1) db_milk) in
  handle (getUser 1) d = mkResponse (Some 404) (Throw "User not found") d
  /\ handle (getUserTodos 1 None) d
     = mkResponse None (Return [Todo.mk 1 1 "Buy milk" None 0 20 20]) d.
Proof. split; reflexivity. Qed.

(** ** C10: The description of a new todo *)

(** C10.  For a body whose user exists, [createTodo] stores and returns
    the todo with [description || null]: no description when the body
    gives none or gives the empty string, and the given text, as it is,
    when it is not empty. *)
Theorem createTodo_description (d : Database) (body : CreateTodoRequest.t)
    (now : timestamp) (u : User.t) :
  select_by_id User.id (CreateTodoRequest.user_id body) (users d) = Some u ->
  let r := handle (createTodo body now) d in
  exists todo,
    outcome r = Return todo
    /\ select_by_id Todo.id (Todo.id todo) (todos (store r)) = Some todo
    /\ (CreateTodoRequest.description body = Some ""
        -> Todo.description todo = None)
    /\ (CreateTodoRequest.description body = None
        -> Todo.description todo = None)
    /\ (forall text, text <> ""
        -> CreateTodoRequest.description body = Some text
        -> Todo.description todo = Some text).
Proof.
  intros H r. subst r.
  rewrite (createTodo_created d body now u H). cbn [outcome store].
  eexists. split; [reflexivity|]. cbn [Todo.id Todo.description todos].
  split; [|split; [|split]].
  - apply select_by_id_appended; [|reflexivity].
    intros x Hx. now apply next_rowid_fresh.
  - intros ->. reflexivity.
  - intros ->. reflexivity.
  - intros text Hne ->. cbn.
    destruct (String.eqb_spec text ""); [contradiction | reflexivity].
Qed.

Lemma createTodo_description_witness :
  let body := CreateTodoRequest.mk 1 "Buy milk" (Some "") in
  let r := handle (createTodo body 20) db_ann in
  exists todo,
    outcome r = Return todo
    /\ select_by_id Todo.id (Todo.id todo) (todos (store r)) = Some todo
    /\ (CreateTodoRequest.description body = Some ""
        -> Todo.description todo = None)
    /\ (CreateTodoRequest.description body = None
        -> Todo.description todo = None)
    /\ (forall text, text <> ""
        -> CreateTodoRequest.description body = Some text
        -> Todo.description todo = Some text).
Proof.
  exact (createTodo_description db_ann
           (CreateTodoRequest.mk 1 "Buy milk" (Some "")) 20
           (User.mk 1 "Ann" "ann@x.com" 10) eq_refl).
Defined.

(** * Further properties of the controllers *)

(** ** Updating a user *)

Lemma updateUser_missing (d : Database) (i : Z) (body : UpdateUserRequest.t) :
  select_by_id User.id i (users d) = None ->
  handle (updateUser i body) d
  = mkResponse (Some 404) (Throw "User not found") d.
Proof. intros H. unfold updateUser. run_method. rewrite H. reflexivity. Qed.

Lemma user_fields_of_nil (body : UpdateUserRequest.t) :
  user_fields_of body = [] -> body = UpdateUserRequest.mk None None.
Proof. destruct body as [[v1|] [v2|]]; cbn; now try discriminate. Qed.

(** What the assignments of a body make of a row. *)
Lemma assign_user_fields (body : UpdateUserRequest.t) (u : User.t) :
  fold_left assign_user (user_fields_of body) u
  = User.mk (User.id u)
      (default_to (User.name u) (UpdateUserRequest.name body))
      (default_to (User.email u) (UpdateUserRequest.email body))
      (User.created_at u).
Proof. destruct body as [[v1|] [v2|]], u; reflexivity. Qed.

(** [updateUser] on a stored user, with a body that names a field: what
    the UPDATE does decides. *)
Lemma updateUser_with_fields (d : Database) (i : Z)
    (body : UpdateUserRequest.t) (u : User.t) :
  select_by_id User.id i (users d) = Some u ->
  user_fields_of body <> [] ->
  handle (updateUser i body) d
  = match update_user (user_fields_of body) i d with
    | (Return _, d') =>
        mkResponse None
          (Return (fold_left assign_user (user_fields_of body) u)) d'
    | (Throw _, _) => mkResponse (Some 400) (Throw "Email already exists") d
    end.
Proof.
  intros H Hne.
  assert (Hsel : forall updates,
             select_by_id User.id i
               (map (fun x => if User.id x =? i
                              then fold_left assign_user updates x
                              else x)
                  (users d))
             = Some (fold_left assign_user updates u)).
  { intros updates.
    rewrite (select_by_id_updated User.id
               (fun x => fold_left assign_user updates x));
      [| intros r; apply assign_user_keeps].
    rewrite Z.eqb_refl, H. reflexivity. }
  destruct body as [[v1|] [v2|]]; cbn in Hne; try (now contradiction Hne);
    unfold updateUser, update_user; run_method; rewrite H;
    cbn [UpdateUserRequest.name UpdateUserRequest.email app List.length
         Nat.eqb user_fields_of database status users];
    match goal with
    | |- context [if ?c then (Throw _, _) else _] => destruct c
    end;
    cbn [database status users]; rewrite ?Hsel; reflexivity.
Qed.

Lemma update_user_accepts (d : Database) (i : Z) (body : UpdateUserRequest.t) :
  (forall e, UpdateUserRequest.email body = Some e ->
     forall v, In v (users d) -> User.id v <> i -> User.email v <> e) ->
  update_user (user_fields_of body) i d
  = (Return tt,
     {| foreign_keys := foreign_keys d;
        users := map (fun u => if User.id u =? i
                               then fold_left assign_user (user_fields_of body) u
                               else u)
                   (users d);
        users_seq := users_seq d;
        todos := todos d;
        todos_seq := todos_seq d |}).
Proof.
  intros Hfree. unfold update_user.
  match goal with
  | |- context [if ?c then _ else _] => destruct c eqn:E
  end; [exfalso | reflexivity].
  apply existsb_exists in E. destruct E as (x & Hx & E).
  apply andb_prop in E. destruct E as [E Htaken].
  apply andb_prop in E. destruct E as [_ Hdiff].
  rewrite assign_user_fields in Hdiff, Htaken. cbn [User.email] in *.
  destruct (UpdateUserRequest.email body) as [e|] eqn:Ee; cbn [default_to] in *.
  - apply existsb_exists in Htaken. destruct Htaken as (v & Hv & Hve).
    apply filter_In in Hv. destruct Hv as [Hv Hvi].
    apply String.eqb_eq in Hve. apply negb_true_iff, Z.eqb_neq in Hvi.
    exact (Hfree e eq_refl v Hv Hvi Hve).
  - rewrite String.eqb_refl in Hdiff. discriminate.
Qed.

Lemma update_user_rejects (d : Database) (i : Z) (body : UpdateUserRequest.t)
    (u v : User.t) (e : string) :
  select_by_id User.id i (users d) = Some u ->
  UpdateUserRequest.email body = Some e ->
  e <> User.email u ->
  In v (users d) -> User.id v <> i -> User.email v = e ->
  update_user (user_fields_of body) i d
  = (Throw "UNIQUE constraint failed: users.email", d).
Proof.
  intros Hsel He Hne Hv Hvi Hve. unfold update_user.
  match goal with
  | |- context [if ?c then _ else _] => destruct c eqn:E
  end; [reflexivity | exfalso].
  apply select_by_id_some in Hsel. destruct Hsel as [Hu Hui].
  apply Bool.not_true_iff_false in E. apply E. clear E.
  apply existsb_exists. exists u. split; [exact Hu|].
  rewrite assign_user_fields. cbn [User.email]. rewrite He.
  cbn [default_to].
  apply andb_true_intro. split; [apply andb_true_intro; split|].
  - now apply Z.eqb_eq.
  - apply negb_true_iff, String.eqb_neq. exact Hne.
  - apply (email_taken_in e _ v); [|exact Hve].
    apply filter_In. split; [exact Hv|].
    now apply negb_true_iff, Z.eqb_neq.
Qed.

(** [updateUser] on a stored user, with a body that names a field and
    whose email, if it names one, no other user has (the user's own is
    fine): the method returns, and stores under the same id, the user
    with the named fields replaced and [id] and [created_at] kept; the
    route answers 200; every other user and every todo is left as it
    was. *)
Theorem updateUser_applies_fields (d : Database) (i : Z)
    (body : UpdateUserRequest.t) (old : User.t) :
  select_by_id User.id i (users d) = Some old ->
  UpdateUserRequest.name body <> None \/ UpdateUserRequest.email body <> None ->
  (forall e, UpdateUserRequest.email body = Some e ->
     forall v, In v (users d) -> User.id v <> i -> User.email v <> e) ->
  let r := handle (updateUser i body) d in
  exists new,
    outcome r = Return new
    /\ http_status 200 (code r) = 200
    /\ select_by_id User.id i (users (store r)) = Some new
    /\ User.name new = default_to (User.name old) (UpdateUserRequest.name body)
    /\ User.email new
       = default_to (User.email old) (UpdateUserRequest.email body)
    /\ User.id new = User.id old
    /\ User.created_at new = User.created_at old
    /\ (forall j, j <> i ->
        select_by_id User.id j (users (store r))
        = select_by_id User.id j (users d))
    /\ todos (store r) = todos d.
Proof.
  intros H Hf Hfree r. subst r.
  assert (Hne : user_fields_of body <> []).
  { destruct body as [[v1|] [v2|]]; cbn; try discriminate.
    destruct Hf as [Hf | Hf]; now contradiction Hf. }
  rewrite (updateUser_with_fields d i body old H Hne).
  rewrite (update_user_accepts d i body Hfree).
  cbn [outcome code store users todos].
  eexists. split; [reflexivity|]. split; [reflexivity|].
  split; [|split; [|split; [|split; [|split; [|split]]]]].
  - rewrite (select_by_id_updated User.id
               (fun x => fold_left assign_user (user_fields_of body) x));
      [| intros x; apply assign_user_keeps].
    rewrite Z.eqb_refl, H. reflexivity.
  - now rewrite assign_user_fields.
  - now rewrite assign_user_fields.
  - now rewrite assign_user_fields.
  - now rewrite assign_user_fields.
  - intros j Hj.
    rewrite (select_by_id_updated User.id
               (fun x => fold_left assign_user (user_fields_of body) x));
      [| intros x; apply assign_user_keeps].
    now replace (j =? i) with false by (symmetry; now apply Z.eqb_neq).
  - reflexivity.
Qed.

Lemma updateUser_applies_fields_witness :
  let r := handle (updateUser 1 (UpdateUserRequest.mk (Some "Anna")
                                   (Some "ann@x.com")))
             db_five in
  exists new,
    outcome r = Return new
    /\ http_status 200 (code r) = 200
    /\ select_by_id User.id 1 (users (store r)) = Some new
    /\ User.name new = "Anna"
    /\ User.email new = "ann@x.com"
    /\ User.id new = 1
    /\ User.created_at new = 10
    /\ (forall j, j <> 1 ->
        select_by_id User.id j (users (store r))
        = select_by_id User.id j (users db_five))
    /\ todos (store r) = todos db_five.
Proof.
  apply (updateUser_applies_fields db_five 1
           (UpdateUserRequest.mk (Some "Anna") (Some "ann@x.com"))
           (User.mk 1 "Ann" "ann@x.com" 10)).
  - reflexivity.
  - left. discriminate.
  - intros e He v Hv Hvi Hve. cbn in He. inversion He; subst e.
    cbn in Hv.
    repeat (destruct Hv as [<- | Hv]; [cbn in *; try discriminate; try lia|]).
    exact Hv.
Defined.

(** [updateUser] on a stored user, with a body whose email differs from
    the user's and belongs to another user: status 400, "Email already
    exists", and nothing is written, the name of the body included. *)
Theorem updateUser_email_conflict (d : Database) (i : Z)
    (body : UpdateUserRequest.t) (u v : User.t) (e : string) :
  select_by_id User.id i (users d) = Some u ->
  UpdateUserRequest.email body = Some e ->
  e <> User.email u ->
  In v (users d) -> User.id v <> i -> User.email v = e ->
  handle (updateUser i body) d
  = mkResponse (Some 400) (Throw "Email already exists") d.
Proof.
  intros H He Hne Hv Hvi Hve.
  assert (Hf : user_fields_of body <> []).
  { unfold user_fields_of. rewrite He.
    destruct (UpdateUserRequest.name body); discriminate. }
  rewrite (updateUser_with_fields d i body u H Hf).
  now rewrite (update_user_rejects d i body u v e H He Hne Hv Hvi Hve).
Qed.

Lemma updateUser_email_conflict_witness :
  handle (updateUser 1 (UpdateUserRequest.mk (Some "Anna") (Some "bob@x.com")))
    db_five
  = mkResponse (Some 400) (Throw "Email already exists") db_five.
Proof.
  apply (updateUser_email_conflict db_five 1
           (UpdateUserRequest.mk (Some "Anna") (Some "bob@x.com"))
           (User.mk 1 "Ann" "ann@x.com" 10)
           (User.mk 2 "Bob" "bob@x.com" 20) "bob@x.com").
  - reflexivity.
  - reflexivity.
  - discriminate.
  - right. left. reflexivity.
  - discriminate.
  - reflexivity.
Defined.

(** ** Ids without a row *)

(** Each of the six methods that take the id of one row sets 404 exactly
    when no row has the id, and then throws its "not found" message and
    writes nothing, whatever body came with the request. *)
Theorem missing_id_is_not_found (d : Database) (i : Z)
    (ubody : UpdateUserRequest.t) (tbody : UpdateTodoRequest.t)
    (now : timestamp) :
  ((select_by_id User.id i (users d) = None <->
    code (handle (getUser i) d) = Some 404)
   /\ (select_by_id User.id i (users d) = None <->
       code (handle (updateUser i ubody) d) = Some 404)
   /\ (select_by_id User.id i (users d) = None <->
       code (handle (deleteUser i) d) = Some 404)
   /\ (select_by_id User.id i (users d) = None ->
       handle (getUser i) d
       = mkResponse (Some 404) (Throw "User not found") d
       /\ handle (updateUser i ubody) d
          = mkResponse (Some 404) (Throw "User not found") d
       /\ handle (deleteUser i) d
          = mkResponse (Some 404) (Throw "User not found") d))
  /\ ((select_by_id Todo.id i (todos d) = None <->
       code (handle (getTodo i) d) = Some 404)
      /\ (select_by_id Todo.id i (todos d) = None <->
          code (handle (updateTodo i tbody now) d) = Some 404)
      /\ (select_by_id Todo.id i (todos d) = None <->
          code (handle (deleteTodo i) d) = Some 404)
      /\ (select_by_id Todo.id i (todos d) = None ->
          handle (getTodo i) d
          = mkResponse (Some 404) (Throw "Todo not found") d
          /\ handle (updateTodo i tbody now) d
             = mkResponse (Some 404) (Throw "Todo not found") d
          /\ handle (deleteTodo i) d
             = mkResponse (Some 404) (Throw "Todo not found") d)).
Proof.
  split.
  - destruct (select_by_id User.id i (users d)) as [u|] eqn:E.
    + rewrite (getUser_found d i u E), (deleteUser_found d i u E).
      repeat split; try discriminate.
      all: try (intros H; exfalso; revert H).
      * destruct (user_fields_of ubody) eqn:Ef.
        -- apply user_fields_of_nil in Ef. subst ubody.
           rewrite (updateUser_no_fields d i u E). discriminate.
        -- rewrite (updateUser_with_fields d i ubody u E)
             by (rewrite Ef; discriminate).
           destruct (update_user _ i d) as [[?|?] ?]; discriminate.
    + rewrite (getUser_missing d i E), (updateUser_missing d i ubody E),
        (deleteUser_missing d i E).
      repeat split; reflexivity.
  - destruct (select_by_id Todo.id i (todos d)) as [t|] eqn:E.
    + rewrite (getTodo_found d i t E), (deleteTodo_found d i t E).
      repeat split; try discriminate.
      all: try (intros H; exfalso; revert H).
      * destruct (fields_of_dec tbody) as [Ef | Ef].
        -- apply fields_of_nil in Ef. subst tbody.
           rewrite (updateTodo_no_fields d i t now E). discriminate.
        -- rewrite (updateTodo_with_fields d i tbody now t E Ef).
           discriminate.
    + rewrite (getTodo_missing d i E), (updateTodo_missing d i tbody now E),
        (deleteTodo_missing d i E).
      repeat split; reflexivity.
Qed.

(** ** Deleting *)

Lemma select_by_id_deleted {Row : Type} (rowid : Row -> Z) (i j : Z)
    (rows : list Row) :
  select_by_id rowid j (delete_by_id rowid i rows)
  = if j =? i then None else select_by_id rowid j rows.
Proof.
  unfold select_by_id, delete_by_id.
  induction rows as [|x rows IH]; simpl.
  - destruct (j =? i); reflexivity.
  - destruct (rowid x =? i) eqn:Exi; simpl.
    + rewrite IH. destruct (j =? i) eqn:Eji; [reflexivity|].
      apply Z.eqb_eq in Exi. apply Z.eqb_neq in Eji.
      replace (rowid x =? j) with false by (symmetry; apply Z.eqb_neq; lia).
      reflexivity.
    + destruct (rowid x =? j) eqn:Exj.
      * apply Z.eqb_neq in Exi. apply Z.eqb_eq in Exj.
        replace (j =? i) with false by (symmetry; apply Z.eqb_neq; lia).
        reflexivity.
      * exact IH.
Qed.

(** [deleteUser] on a stored user sets 204 and returns; afterwards
    [getUser] on the id sets 404, [getUser] on every other id answers as
    it did before, and AUTOINCREMENT's counter stays where it was. *)
Theorem deleteUser_removes_user (d : Database) (i : Z) (u : User.t) :
  select_by_id User.id i (users d) = Some u ->
  let r := handle (deleteUser i) d in
  code r = Some 204
  /\ outcome r = Return tt
  /\ handle (getUser i) (store r)
     = mkResponse (Some 404) (Throw "User not found") (store r)
  /\ (forall j, j <> i ->
      handle (getUser j) (store r)
      = mkResponse (code (handle (getUser j) d))
          (outcome (handle (getUser j) d)) (store r))
  /\ users_seq (store r) = users_seq d.
Proof.
  intros H r. subst r. rewrite (deleteUser_found d i u H).
  cbn [code outcome store]. unfold delete_user. cbn [snd].
  split; [reflexivity|]. split; [reflexivity|].
  set (d' := {| foreign_keys := foreign_keys d;
                users := delete_by_id User.id i (users d) |}).
  split; [|split].
  - apply getUser_missing. cbn [users d'].
    rewrite select_by_id_deleted, Z.eqb_refl. reflexivity.
  - intros j Hj.
    assert (E : select_by_id User.id j (users d')
                = select_by_id User.id j (users d)).
    { cbn [users d']. rewrite select_by_id_deleted.
      now replace (j =? i) with false by (symmetry; now apply Z.eqb_neq). }
    destruct (select_by_id User.id j (users d)) as [v|] eqn:Ev.
    + rewrite (getUser_found d' j v E), (getUser_found d j v Ev). reflexivity.
    + rewrite (getUser_missing d' j E), (getUser_missing d j Ev). reflexivity.
  - reflexivity.
Qed.

Lemma deleteUser_removes_user_witness :
  let r := handle (deleteUser 2) db_five in
  code r = Some 204
  /\ outcome r = Return tt
  /\ handle (getUser 2) (store r)
     = mkResponse (Some 404) (Throw "User not found") (store r)
  /\ (forall j, j <> 2 ->
      handle (getUser j) (store r)
      = mkResponse (code (handle (getUser j) db_five))
          (outcome (handle (getUser j) db_five)) (store r))
  /\ users_seq (store r) = 5.
Proof.
  exact (deleteUser_removes_user db_five 2 (User.mk 2 "Bob" "bob@x.com" 20)
           eq_refl).
Defined.

Section FilteredOrder.
Context {Row : Type}.
Variable created_at : Row -> timestamp.
Variable p : Row -> bool.

Lemma insert_desc_front (r : Row) (rows : list Row) :
  Forall (fun x => created_at x <= created_at r) rows ->
  insert_desc created_at r rows = r :: rows.
Proof.
  intros H. destruct H as [|x rows Hx _]; cbn; [reflexivity|].
  now replace (created_at x <=? created_at r) with true
    by (symmetry; now apply Z.leb_le).
Qed.

Lemma filter_insert_desc (r : Row) (rows : list Row) :
  StronglySorted (newest_first created_at) rows ->
  filter p (insert_desc created_at r rows)
  = if p r then insert_desc created_at r (filter p rows) else filter p rows.
Proof.
  induction 1 as [|x rows Hs IH Hx]; cbn.
  - destruct (p r); reflexivity.
  - destruct (created_at x <=? created_at r) eqn:E; cbn.
    + destruct (p r); [|reflexivity].
      symmetry. apply insert_desc_front.
      apply Z.leb_le in E.
      assert (Hall : Forall (fun y => created_at y <= created_at r)
                       (x :: rows)).
      { constructor; [exact E|].
        eapply Forall_impl; [|exact Hx]. unfold newest_first. intros; lia. }
      rewrite Forall_forall in *. intros y Hy.
      apply Hall. change (In y (filter p (x :: rows))) in Hy.
      now apply filter_In in Hy.
    + rewrite IH. destruct (p x), (p r); cbn; try reflexivity.
      now rewrite E.
Qed.

(** Filtering an ordered listing is listing the filtered rows. *)
Lemma order_by_filter (rows : list Row) :
  order_by_created_at_desc created_at (filter p rows)
  = filter p (order_by_created_at_desc created_at rows).
Proof.
  induction rows as [|x rows IH]; [reflexivity|].
  change (order_by_created_at_desc created_at (x :: rows))
    with (insert_desc created_at x (order_by_created_at_desc created_at rows)).
  rewrite filter_insert_desc by apply order_by_sorted.
  rewrite <- IH. cbn [filter]. destruct (p x); reflexivity.
Qed.
End FilteredOrder.

Lemma filter_swap {A : Type} (p q : A -> bool) (l : list A) :
  filter p (filter q l) = filter q (filter p l).
Proof.
  induction l as [|x l IH]; cbn; [reflexivity|].
  destruct (p x) eqn:Ep, (q x) eqn:Eq; cbn; rewrite ?Ep, ?Eq, IH; reflexivity.
Qed.

(** [deleteTodo] on a stored todo sets 204 and returns; afterwards
    [getTodo] on the id sets 404, [getTodo] on every other id answers as
    it did before, [getUserTodos] returns for every user the list it
    returned before without the deleted todo, in the same order, and no
    user is touched. *)
Theorem deleteTodo_removes_todo (d : Database) (i : Z) (t : Todo.t) :
  select_by_id Todo.id i (todos d) = Some t ->
  let r := handle (deleteTodo i) d in
  code r = Some 204
  /\ outcome r = Return tt
  /\ handle (getTodo i) (store r)
     = mkResponse (Some 404) (Throw "Todo not found") (store r)
  /\ (forall j, j <> i ->
      handle (getTodo j) (store r)
      = mkResponse (code (handle (getTodo j) d))
          (outcome (handle (getTodo j) d)) (store r))
  /\ (forall userId completed rows,
      outcome (handle (getUserTodos userId completed) d) = Return rows ->
      outcome (handle (getUserTodos userId completed) (store r))
      = Return (filter (fun x => negb (Todo.id x =? i)) rows))
  /\ users (store r) = users d
  /\ todos_seq (store r) = todos_seq d.
Proof.
  intros H r. subst r. rewrite (deleteTodo_found d i t H).
  cbn [code outcome store]. unfold delete_todo. cbn [snd].
  split; [reflexivity|]. split; [reflexivity|].
  set (d' := {| foreign_keys := foreign_keys d;
                todos := delete_by_id Todo.id i (todos d) |}).
  split; [|split; [|split; [|split]]].
  - apply getTodo_missing. cbn [todos d'].
    rewrite select_by_id_deleted, Z.eqb_refl. reflexivity.
  - intros j Hj.
    assert (E : select_by_id Todo.id j (todos d')
                = select_by_id Todo.id j (todos d)).
    { cbn [todos d']. rewrite select_by_id_deleted.
      now replace (j =? i) with false by (symmetry; now apply Z.eqb_neq). }
    destruct (select_by_id Todo.id j (todos d)) as [v|] eqn:Ev.
    + rewrite (getTodo_found d' j v E), (getTodo_found d j v Ev). reflexivity.
    + rewrite (getTodo_missing d' j E), (getTodo_missing d j Ev). reflexivity.
  - intros userId completed rows.
    rewrite !getUserTodos_runs. cbn [outcome].
    intros Hrows. inversion Hrows. subst rows. f_equal.
    unfold select_todos. cbn [todos d']. unfold delete_by_id.
    now rewrite filter_swap, order_by_filter.
  - reflexivity.
  - reflexivity.
Qed.

Lemma deleteTodo_removes_todo_witness :
  let r := handle (deleteTodo 1) db_milk in
  code r = Some 204
  /\ outcome r = Return tt
  /\ handle (getTodo 1) (store r)
     = mkResponse (Some 404) (Throw "Todo not found") (store r)
  /\ outcome (handle (getUserTodos 1 None) (store r)) = Return []
  /\ users (store r) = users db_milk.
Proof.
  destruct (deleteTodo_removes_todo db_milk 1
              (Todo.mk 1 1 "Buy milk" None 0 20 20) eq_refl)
    as (H1 & H2 & H3 & _ & _ & H6 & _).
  repeat split; assumption || reflexivity.
Defined.

(** ** Creating, then reading back *)

Lemma select_by_id_kept {Row : Type} (rowid : Row -> Z) (i : Z)
    (rows : list Row) (r extra : Row) :
  select_by_id rowid i rows = Some r ->
  select_by_id rowid i (rows ++ [extra]) = Some r.
Proof.
  unfold select_by_id.
  induction rows as [|x rows IH]; simpl; [discriminate|].
  destruct (rowid x =? i); [trivial | exact IH].
Qed.

(** [createUser] with an email no stored user has sets 201 and returns a
    user with the name and email of the body, the clock reading as
    [created_at], and an id larger than that of every stored user and
    than every id given out before; [getUser] on that id then returns the
    same user, every user stored before is still found under its id, and
    no todo is touched. *)
Theorem createUser_then_getUser (d : Database) (body : CreateUserRequest.t)
    (now : timestamp) :
  email_taken (CreateUserRequest.email body) (users d) = false ->
  let r := handle (createUser body now) d in
  exists user,
    code r = Some 201
    /\ outcome r = Return user
    /\ User.name user = CreateUserRequest.name body
    /\ User.email user = CreateUserRequest.email body
    /\ User.created_at user = now
    /\ users_seq d < User.id user
    /\ (forall u, In u (users d) -> User.id u < User.id user)
    /\ handle (getUser (User.id user)) (store r)
       = mkResponse None (Return user) (store r)
    /\ (forall j u,
           select_by_id User.id j (users d) = Some u ->
           select_by_id User.id j (users (store r)) = Some u)
    /\ todos (store r) = todos d.
Proof.
  intros H r. subst r. rewrite (createUser_created d body now H).
  cbn [code outcome store]. eexists.
  split; [reflexivity|]. split; [reflexivity|].
  cbn [User.name User.email User.created_at User.id users todos].
  split; [reflexivity|]. split; [reflexivity|]. split; [reflexivity|].
  split; [unfold next_rowid; lia|].
  split.
  { intros u Hu. apply (max_rowid_bound User.id) in Hu.
    unfold next_rowid. lia. }
  split.
  { apply getUser_found. cbn [users].
    apply select_by_id_appended; [|reflexivity].
    intros x Hx. now apply next_rowid_fresh. }
  split; [|reflexivity].
  intros j u Hu. now apply select_by_id_kept.
Qed.

Lemma createUser_then_getUser_witness :
  let r := handle (createUser bob 20) db_ann in
  exists user,
    code r = Some 201
    /\ outcome r = Return user
    /\ user = User.mk 2 "Bob" "bob@x.com" 20
    /\ handle (getUser 2) (store r) = mkResponse None (Return user) (store r)
    /\ select_by_id User.id 1 (users (store r))
       = Some (User.mk 1 "Ann" "ann@x.com" 10).
Proof.
  destruct (createUser_then_getUser db_ann bob 20 eq_refl)
    as (user & H1 & H2 & _ & _ & _ & _ & _ & H8 & H9 & _).
  exists user. split; [exact H1|]. split; [exact H2|].
  assert (E : user = User.mk 2 "Bob" "bob@x.com" 20).
  { cbv in H2. now inversion H2. }
  split; [exact E|]. split.
  - rewrite E in H8 at 1. exact H8.
  - apply H9. reflexivity.
Defined.

(** [createTodo] for a stored user sets 201 and returns a todo with the
    [user_id] and title of the body, not completed, with the clock
    reading as [created_at] and [updated_at], and an id larger than that
    of every stored todo and than every id given out before; [getTodo] on
    that id then returns the same todo and every todo stored before is
    still found under its id.  [getUserTodos] lists the new todo for its
    owner and, for every other user, returns the list it returned
    before. *)
Theorem createTodo_then_getTodo (d : Database) (body : CreateTodoRequest.t)
    (now : timestamp) (owner : User.t) :
  select_by_id User.id (CreateTodoRequest.user_id body) (users d)
  = Some owner ->
  let r := handle (createTodo body now) d in
  exists todo,
    code r = Some 201
    /\ outcome r = Return todo
    /\ Todo.user_id todo = CreateTodoRequest.user_id body
    /\ Todo.title todo = CreateTodoRequest.title body
    /\ Todo.completed todo = 0
    /\ Todo.created_at todo = now
    /\ Todo.updated_at todo = now
    /\ todos_seq d < Todo.id todo
    /\ (forall t, In t (todos d) -> Todo.id t < Todo.id todo)
    /\ handle (getTodo (Todo.id todo)) (store r)
       = mkResponse None (Return todo) (store r)
    /\ (forall j t,
           select_by_id Todo.id j (todos d) = Some t ->
           select_by_id Todo.id j (todos (store r)) = Some t)
    /\ (exists rows,
           outcome (handle (getUserTodos (Todo.user_id todo) None) (store r))
           = Return rows
           /\ In todo rows)
    /\ (forall userId completed,
           userId <> CreateTodoRequest.user_id body ->
           outcome (handle (getUserTodos userId completed) (store r))
           = outcome (handle (getUserTodos userId completed) d))
    /\ users (store r) = users d.
Proof.
  intros H r. subst r. rewrite (createTodo_created d body now owner H).
  cbn [code outcome store]. eexists.
  split; [reflexivity|]. split; [reflexivity|].
  cbn [Todo.user_id Todo.title Todo.completed Todo.created_at
       Todo.updated_at Todo.id users todos].
  do 5 (split; [reflexivity|]).
  split; [unfold next_rowid; lia|].
  split.
  { intros t Ht. apply (max_rowid_bound Todo.id) in Ht.
    unfold next_rowid. lia. }
  split.
  { apply getTodo_found. cbn [todos].
    apply select_by_id_appended; [|reflexivity].
    intros x Hx. now apply next_rowid_fresh. }
  split; [intros j t Ht; now apply select_by_id_kept|].
  split.
  { eexists. rewrite getUserTodos_runs. cbn [outcome].
    split; [reflexivity|].
    unfold select_todos. cbn [todos].
    apply (Permutation_in _ (order_by_perm _ _)).
    apply filter_In. split; [apply in_or_app; right; now left|].
    cbn. now rewrite Z.eqb_refl. }
  split; [|reflexivity].
  intros userId completed Hne. rewrite !getUserTodos_runs. cbn [outcome].
  f_equal. unfold select_todos. cbn [todos].
  rewrite filter_app. cbn [filter forallb holds Todo.user_id].
  replace (CreateTodoRequest.user_id body =? userId) with false
    by (symmetry; apply Z.eqb_neq; congruence).
  cbn [andb]. now rewrite app_nil_r.
Qed.

Lemma createTodo_then_getTodo_witness :
  let r := handle (createTodo (CreateTodoRequest.mk 1 "Walk" (Some "at six"))
                     30)
             db_milk in
  exists todo,
    code r = Some 201
    /\ outcome r = Return todo
    /\ todo = Todo.mk 2 1 "Walk" (Some "at six") 0 30 30
    /\ handle (getTodo 2) (store r) = mkResponse None (Return todo) (store r)
    /\ select_by_id Todo.id 1 (todos (store r))
       = Some (Todo.mk 1 1 "Buy milk" None 0 20 20).
Proof.
  destruct (createTodo_then_getTodo db_milk
              (CreateTodoRequest.mk 1 "Walk" (Some "at six")) 30
              (User.mk 1 "Ann" "ann@x.com" 10) eq_refl)
    as (todo & H1 & H2 & _ & _ & _ & _ & _ & _ & _ & H10 & H11 & _).
  exists todo. split; [exact H1|]. split; [exact H2|].
  assert (E : todo = Todo.mk 2 1 "Walk" (Some "at six") 0 30 30).
  { cbv in H2. now inversion H2. }
  split; [exact E|]. split.
  - rewrite E in H10 at 1. exact H10.
  - apply H11. reflexivity.
Defined.

(** ** The UNIQUE constraint on emails *)

Lemma NoDup_key_filter {A K : Type} (key : A -> K) (p : A -> bool)
    (l : list A) :
  NoDup (map key l) -> NoDup (map key (filter p l)).
Proof.
  induction l as [|x l IH]; cbn; intros H; [constructor|].
  inversion H as [|? ? Hnot Hnd]. destruct (p x); cbn; [|now apply IH].
  constructor; [|now apply IH].
  intros Hin. apply Hnot. apply in_map_iff in Hin.
  destruct Hin as (y & Hy & Hin). apply filter_In in Hin.
  apply in_map_iff. exists y. tauto.
Qed.

Lemma NoDup_key_appended {A K : Type} (key : A -> K) (l : list A) (y : A) :
  NoDup (map key l) ->
  (forall x, In x l -> key x <> key y) ->
  NoDup (map key (l ++ [y])).
Proof.
  intros Hnd Hfresh.
  apply (Permutation_NoDup (l := map key (y :: l))).
  - apply Permutation_map. change (y :: l) with ([y] ++ l).
    apply Permutation_app_comm.
  - cbn. constructor; [|exact Hnd].
    intros Hin. apply in_map_iff in Hin. destruct Hin as (x & Hx & Hin).
    now apply (Hfresh x).
Qed.

Lemma email_not_taken (e : string) (rows : list User.t) :
  email_taken e rows = false ->
  forall u, In u rows -> User.email u <> e.
Proof.
  intros H u Hu He. apply Bool.not_true_iff_false in H. apply H.
  now apply (email_taken_in e rows u).
Qed.

(** What each route can do to [users]. *)
Lemma serve_users_by_route (now : timestamp) (req : Request) (d : Database) :
  let d' := store (serve now req d) in
  match req with
  | POST_users body =>
      users d' = users d
      \/ (email_taken (CreateUserRequest.email body) (users d) = false
          /\ exists u,
               users d' = users d ++ [u]
               /\ User.email u = CreateUserRequest.email body)
  | PUT_users_id i body =>
      users d' = users d
      \/ update_user (user_fields_of body) i d = (Return tt, d')
  | DELETE_users_id i =>
      users d' = users d \/ users d' = delete_by_id User.id i (users d)
  | _ => users d' = users d
  end.
Proof.
  destruct req; cbn [serve answer store].
  - reflexivity.
  - destruct (select_by_id User.id id (users d)) as [u|] eqn:E;
      [rewrite (getUser_found d id u E) | rewrite (getUser_missing d id E)];
      reflexivity.
  - destruct (email_taken (CreateUserRequest.email body) (users d)) eqn:E.
    + rewrite (createUser_conflict d body now E). now left.
    + rewrite (createUser_created d body now E). right.
      split; [reflexivity|]. eexists. split; reflexivity.
  - destruct (select_by_id User.id id (users d)) as [u|] eqn:E.
    + destruct (user_fields_of body) eqn:Ef.
      * apply user_fields_of_nil in Ef. subst body.
        rewrite (updateUser_no_fields d id u E). now left.
      * rewrite (updateUser_with_fields d id body u E)
          by (rewrite Ef; discriminate).
        rewrite Ef.
        destruct (update_user (u0 :: l) id d) as [[[]|msg] d''];
          cbn [store]; [now right | now left].
    + rewrite (updateUser_missing d id body E). now left.
  - destruct (select_by_id User.id id (users d)) as [u|] eqn:E.
    + rewrite (deleteUser_found d id u E). now right.
    + rewrite (deleteUser_missing d id E). now left.
  - rewrite listTodos_runs. reflexivity.
  - destruct (select_by_id Todo.id id (todos d)) as [t|] eqn:E;
      [rewrite (getTodo_found d id t E) | rewrite (getTodo_missing d id E)];
      reflexivity.
  - rewrite getUserTodos_runs. reflexivity.
  - destruct (select_by_id User.id (CreateTodoRequest.user_id body) (users d))
      as [u|] eqn:E.
    + rewrite (createTodo_created d body now u E). reflexivity.
    + rewrite (createTodo_unknown_user d body now E). reflexivity.
  - destruct (updateTodo_store d id body now) as [-> | ->]; reflexivity.
  - destruct (select_by_id Todo.id id (todos d)) as [t|] eqn:E.
    + rewrite (deleteTodo_found d id t E). reflexivity.
    + rewrite (deleteTodo_missing d id E). reflexivity.
Qed.

(** An accepted UPDATE keeps emails apart, when ids are. *)
Lemma update_user_unique_emails (updates : list UserAssignment) (i : Z)
    (d d' : Database) :
  NoDup (map User.id (users d)) ->
  unique_emails d ->
  update_user updates i d = (Return tt, d') ->
  unique_emails d'.
Proof.
  intros Hids Hem Hup. unfold update_user in Hup.
  match type of Hup with
  | (if ?c then _ else _) = _ => destruct c eqn:Hc
  end; [discriminate|].
  inversion Hup as [Hd']. clear Hup Hd'. unfold unique_emails in *.
  cbn [users].
  set (set := fun u => fold_left assign_user updates u) in *.
  destruct (select_by_id User.id i (users d)) as [u|] eqn:Hsel.
  - apply select_by_id_some in Hsel. destruct Hsel as [Hu Hui].
    apply in_split in Hu. destruct Hu as (l1 & l2 & Hsplit).
    rewrite Hsplit in *.
    assert (Hothers : forall x, In x (l1 ++ l2) -> User.id x <> i).
    { rewrite map_app in Hids. cbn [map] in Hids.
      apply NoDup_remove_2 in Hids. intros x Hx Hxi. apply Hids.
      rewrite <- map_app. apply in_map_iff. exists x. split; [lia|exact Hx]. }
    assert (Hmap : forall l, (forall x, In x l -> User.id x <> i) ->
                     map (fun x => if User.id x =? i then set x else x) l = l).
    { intros l Hl. rewrite <- (map_id l) at 2. apply map_ext_in.
      intros x Hx. specialize (Hl x Hx). apply Z.eqb_neq in Hl.
      now rewrite Hl. }
    rewrite map_app. cbn [map]. rewrite Hui, Z.eqb_refl.
    rewrite (Hmap l1), (Hmap l2)
      by (intros x Hx; apply Hothers, in_or_app; tauto).
    rewrite map_app in Hem |- *. cbn [map] in Hem |- *.
    destruct (String.eqb_spec (User.email (set u)) (User.email u)) as [E | E].
    + rewrite E. exact Hem.
    + apply (Permutation_NoDup (Permutation_middle _ _ _)).
      constructor.
      * assert (Hfree := proj2 (Bool.not_true_iff_false _) Hc).
        intros Hin. apply Hfree. apply existsb_exists.
        exists u. split; [apply in_or_app; right; now left|].
        rewrite Hui, Z.eqb_refl. cbn [andb].
        apply andb_true_intro. split.
        -- now apply negb_true_iff, String.eqb_neq.
        -- rewrite <- map_app in Hin. apply in_map_iff in Hin.
           destruct Hin as (v & Hv & Hin).
           apply (email_taken_in _ _ v); [|exact Hv].
           apply filter_In. split.
           ++ apply in_app_or in Hin. apply in_or_app.
              destruct Hin; [now left | right; now right].
           ++ apply negb_true_iff, Z.eqb_neq. now apply Hothers.
      * apply NoDup_remove_1 in Hem. exact Hem.
  - replace (map (fun x => if User.id x =? i then set x else x) (users d))
      with (users d); [exact Hem|].
    rewrite <- (map_id (users d)) at 1. apply map_ext_in.
    intros x Hx.
    pose proof (select_by_id_none User.id i (users d) Hsel x Hx) as Hne.
    apply Z.eqb_neq in Hne. now rewrite Hne.
Qed.

Lemma serve_unique_emails (now : timestamp) (req : Request) (d : Database) :
  primary_keys d -> unique_emails d ->
  unique_emails (store (serve now req d)).
Proof.
  intros [Hids _] Hem.
  pose proof (serve_users_by_route now req d) as H. cbn zeta in H.
  unfold unique_emails in *.
  destruct req; try (rewrite H; exact Hem).
  - destruct H as [-> | (Hfree & u & -> & Hu)]; [exact Hem|].
    apply NoDup_key_appended; [exact Hem|].
    intros x Hx. rewrite Hu. now apply (email_not_taken _ (users d)).
  - destruct H as [-> | H]; [exact Hem|].
    now apply (update_user_unique_emails _ _ _ _ Hids Hem H).
  - destruct H as [-> | ->]; [exact Hem|].
    now apply NoDup_key_filter.
Qed.

(** In every database built from [db], no two users share an email:
    [createUser] and [updateUser] keep the UNIQUE constraint of the
    schema, whatever the order of sign-ups, updates and deletions. *)
Theorem emails_are_unique (requests : list (timestamp * Request)) :
  unique_emails (replay requests db).
Proof.
  assert (H : forall d, primary_keys d -> unique_emails d ->
                unique_emails (replay requests d)).
  { induction requests as [|[now req] requests IH]; intros d Hk He; cbn.
    - exact He.
    - apply IH; [now apply serve_primary_keys|now apply serve_unique_emails]. }
  apply H; [apply db_primary_keys | constructor].
Qed.

(** ** Ids are given out once *)

Lemma serve_seq_mono (now : timestamp) (req : Request) (d : Database) :
  users_seq d <= users_seq (store (serve now req d))
  /\ todos_seq d <= todos_seq (store (serve now req d)).
Proof.
  split.
  - destruct (serve_users now req d)
      as [[_ E] | [(i & _ & E) | [(u & _ & E & Hid) | (i & ups & _ & E)]]];
      rewrite E; try lia.
    rewrite Hid. unfold next_rowid. lia.
  - destruct (serve_todos now req d)
      as [[_ E] | [(p & _ & E) | [(t & _ & E & Hid & _) | (i & ups & _ & E)]]];
      rewrite E; try lia.
    rewrite Hid. unfold next_rowid. lia.
Qed.

Lemma replay_seq_mono (requests : list (timestamp * Request)) (d : Database) :
  users_seq d <= users_seq (replay requests d)
  /\ todos_seq d <= todos_seq (replay requests d).
Proof.
  revert d. induction requests as [|[now req] requests IH]; intros d.
  - cbn. lia.
  - change (replay ((now, req) :: requests) d)
      with (replay requests (store (serve now req d))).
    destruct (serve_seq_mono now req d).
    destruct (IH (store (serve now req d))). lia.
Qed.

Lemma serve_ids_issued (now : timestamp) (req : Request) (d : Database) :
  ids_issued d -> ids_issued (store (serve now req d)).
Proof.
  intros [Hu Ht]. split.
  - destruct (serve_users now req d)
      as [[E Es] | [(i & E & Es) | [(u & E & Es & Hid) | (i & ups & E & Es)]]];
      rewrite E, Es.
    + exact Hu.
    + intros x Hx. apply filter_In in Hx. now apply Hu.
    + intros x Hx. apply in_app_or in Hx. destruct Hx as [Hx | [<- | []]].
      * specialize (Hu x Hx). rewrite Hid. unfold next_rowid. lia.
      * lia.
    + intros x Hx. apply in_map_iff in Hx. destruct Hx as (y & <- & Hy).
      destruct (User.id y =? i); [rewrite assign_user_keeps|]; now apply Hu.
  - destruct (serve_todos now req d)
      as [[E Es] | [(p & E & Es) | [(t & E & Es & Hid & _)
         | (i & ups & E & Es)]]];
      rewrite E, Es.
    + exact Ht.
    + intros x Hx. apply filter_In in Hx. now apply Ht.
    + intros x Hx. apply in_app_or in Hx. destruct Hx as [Hx | [<- | []]].
      * specialize (Ht x Hx). rewrite Hid. unfold next_rowid. lia.
      * lia.
    + intros x Hx. apply in_map_iff in Hx. destruct Hx as (y & <- & Hy).
      destruct (Todo.id y =? i); [|now apply Ht].
      destruct (assign_todo_keeps now (ups ++ [SetUpdatedAtCurrentTimestamp]) y)
        as (H1 & _).
      cbn zeta in H1. rewrite H1. now apply Ht.
Qed.

Lemma replay_ids_issued (requests : list (timestamp * Request))
    (d : Database) :
  ids_issued d -> ids_issued (replay requests d).
Proof.
  revert d. induction requests as [|[now req] requests IH]; intros d H; cbn.
  - exact H.
  - apply IH. now apply serve_ids_issued.
Qed.

(** An id is given out once.  Take any database built from [db] and any
    user (or todo) stored in it; whatever requests follow, deletions
    included, a later [createUser] (or [createTodo]) that returns gives
    its row a larger id. *)
Theorem ids_are_never_reused (before after : list (timestamp * Request)) :
  let d1 := replay before db in
  let d2 := replay after d1 in
  (forall u body now created,
      In u (users d1) ->
      outcome (handle (createUser body now) d2) = Return created ->
      User.id u < User.id created)
  /\ (forall t body now created,
         In t (todos d1) ->
         outcome (handle (createTodo body now) d2) = Return created ->
         Todo.id t < Todo.id created).
Proof.
  intros d1 d2.
  assert (H1 : ids_issued d1).
  { apply replay_ids_issued. split; intros x []. }
  destruct H1 as [Hu Ht].
  destruct (replay_seq_mono after d1) as [Hsu Hst]. fold d2 in Hsu, Hst.
  split.
  - intros u body now created Hin.
    destruct (email_taken (CreateUserRequest.email body) (users d2)) eqn:E.
    + rewrite (createUser_conflict d2 body now E). discriminate.
    + rewrite (createUser_created d2 body now E). cbn [outcome].
      intros H. inversion H. cbn [User.id].
      specialize (Hu u Hin). unfold next_rowid. lia.
  - intros t body now created Hin.
    destruct (select_by_id User.id (CreateTodoRequest.user_id body) (users d2))
      as [o|] eqn:E.
    + rewrite (createTodo_created d2 body now o E). cbn [outcome].
      intros H. inversion H. cbn [Todo.id].
      specialize (Ht t Hin). unfold next_rowid. lia.
    + rewrite (createTodo_unknown_user d2 body now E). discriminate.
Qed.

Lemma ids_are_never_reused_witness :
  exists created,
    outcome (handle (createUser (CreateUserRequest.mk "Fay" "fay@x.com") 70)
               (replay [(60, DELETE_users_id 5)] db_five))
    = Return created
    /\ 5 < User.id created.
Proof.
  destruct (ids_are_never_reused
              [(10, POST_users ann);
               (20, POST_users bob);
               (30, POST_users (CreateUserRequest.mk "Cyd" "cyd@x.com"));
               (40, POST_users (CreateUserRequest.mk "Dee" "dee@x.com"));
               (50, POST_users (CreateUserRequest.mk "Eve" "eve@x.com"))]
              [(60, DELETE_users_id 5)]) as [Hu _].
  eexists. split; [reflexivity|].
  apply (Hu (User.mk 5 "Eve" "eve@x.com" 50)
            (CreateUserRequest.mk "Fay" "fay@x.com") 70).
  - cbn. tauto.
  - reflexivity.
Defined.

(** ** What a route leaves alone *)

(** A route writes its own table only.  A route of the todo controller
    and every GET leaves [users] and its counter as they were; a route of
    the user controller and every GET leaves [todos] and its counter as
    they were, but for [DELETE /users/{id}] on a connection that enforces
    foreign keys, which takes the todos of the deleted user with it; a
    GET leaves the whole database as it was; no route changes the
    foreign-key pragma. *)
Theorem routes_write_their_own_table (now : timestamp) (req : Request)
    (d : Database) :
  let d' := store (serve now req d) in
  (writes_users req = false ->
   users d' = users d /\ users_seq d' = users_seq d)
  /\ (writes_todos req = false ->
      todos_seq d' = todos_seq d
      /\ (todos d' = todos d
          \/ exists i,
               req = DELETE_users_id i
               /\ foreign_keys d = true
               /\ todos d' = filter (fun t => negb (Todo.user_id t =? i))
                               (todos d)))
  /\ (writes_users req = false -> writes_todos req = false -> d' = d)
  /\ foreign_keys d' = foreign_keys d.
Proof.
  destruct req; cbn [serve answer store writes_users writes_todos];
    (split; [| split; [| split; [| apply (serve_foreign_keys now _ d) ||
                                   idtac ]]]);
    try discriminate.
  all: try (intros _).
  all: unfold_methods; split_cases.
  all: try (intros _).
  all: try (split; reflexivity).
  all: try (destruct d; reflexivity).
  all: try reflexivity.
  all: try (split; [reflexivity | left; reflexivity]).
  split; [reflexivity|]. right. exists id.
  apply andb_prop in Heqb. destruct Heqb as [Hfk _].
  split; [reflexivity | split; [exact Hfk | reflexivity]].
Qed.

(** ** Status codes *)


(** ** Listings compared *)

Lemma filter_and {A : Type} (p q : A -> bool) (l : list A) :
  filter (fun x => p x && q x) l = filter q (filter p l).
Proof.
  induction l as [|x l IH]; cbn; [reflexivity|].
  destruct (p x); cbn; [destruct (q x)|]; now rewrite IH.
Qed.


(** The [completed] flag only filters: what [getUserTodos] returns with
    the flag is what it returns without, restricted to the todos whose
    [completed] is the flag, in the same order. *)
Theorem completed_flag_filters (d : Database) (userId : Z) (flag : bool) :
  exists rows,
    outcome (handle (getUserTodos userId None) d) = Return rows
    /\ outcome (handle (getUserTodos userId (Some flag)) d)
       = Return (filter (fun t => Todo.completed t =? bit flag) rows).
Proof.
  eexists. rewrite !getUserTodos_runs. cbn [outcome].
  split; [reflexivity|]. f_equal. unfold select_todos.
  rewrite <- order_by_filter. f_equal.
  rewrite <- filter_and. apply filter_ext.
  intros t. cbn. now rewrite !andb_true_r.
Qed.

(** ** The newest row comes first *)

Section Newest.
Context {Row : Type}.
Variable created_at : Row -> timestamp.

End Newest.



(** ** What an update of a todo leaves alone *)

(** [updateTodo], whatever its id, body and outcome, changes no todo
    stored under another id, no user, and neither counter. *)
Theorem updateTodo_touches_one_todo (d : Database) (i : Z)
    (body : UpdateTodoRequest.t) (now : timestamp) :
  let d' := store (handle (updateTodo i body now) d) in
  (forall j, j <> i ->
     select_by_id Todo.id j (todos d') = select_by_id Todo.id j (todos d))
  /\ List.length (todos d') = List.length (todos d)
  /\ map Todo.id (todos d') = map Todo.id (todos d)
  /\ users d' = users d
  /\ users_seq d' = users_seq d
  /\ todos_seq d' = todos_seq d.
Proof.
  intros d'. subst d'.
  destruct (updateTodo_store d i body now) as [-> | ->];
    [repeat split|].
  unfold update_todo. cbn [snd todos users users_seq todos_seq].
  split; [|split; [|split]]; try (repeat split; fail).
  - intros j Hj.
    rewrite (select_by_id_updated Todo.id
               (fun t => fold_left (assign_todo now)
                           (fields_of body ++ [SetUpdatedAtCurrentTimestamp])
                           t));
      [| intros t; apply assign_todo_keeps].
    now replace (j =? i) with false by (symmetry; now apply Z.eqb_neq).
  - now rewrite length_map.
  - apply (map_key_updated Todo.id
             (fun t => fold_left (assign_todo now)
                         (fields_of body ++ [SetUpdatedAtCurrentTimestamp]) t)).
    intros t. apply assign_todo_keeps.
Qed.

(** ** The completed column *)

Lemma assign_todo_completed (now : timestamp) (body : UpdateTodoRequest.t)
    (t : Todo.t) :
  Todo.completed
    (fold_left (assign_todo now)
       (fields_of body ++ [SetUpdatedAtCurrentTimestamp]) t)
  = match UpdateTodoRequest.completed body with
    | Some v => bit v
    | None => Todo.completed t
    end.
Proof. destruct body as [[v1|] [v2|] [v3|]]; reflexivity. Qed.

Lemma serve_todos_unwritten (now : timestamp) (req : Request)
    (d : Database) :
  writes_todos req = false ->
  todos (store (serve now req d)) = todos d
  \/ exists p, todos (store (serve now req d)) = filter p (todos d).
Proof.
  destruct req; try discriminate; intros _; cbn [serve answer store];
    unfold_methods; split_cases;
    first [ left; reflexivity | right; eexists; reflexivity ].
Qed.

Lemma serve_completed_is_a_bit (now : timestamp) (req : Request)
    (d : Database) :
  completed_is_a_bit d -> completed_is_a_bit (store (serve now req d)).
Proof.
  intros H. unfold completed_is_a_bit in *.
  destruct (writes_todos req) eqn:Ew.
  - destruct req; try discriminate; cbn [serve answer store].
    + destruct (select_by_id User.id (CreateTodoRequest.user_id body) (users d))
        as [u|] eqn:E.
      * rewrite (createTodo_created d body now u E). cbn [store todos].
        apply Forall_app. split; [exact H|].
        constructor; [now left | constructor].
      * now rewrite (createTodo_unknown_user d body now E).
    + destruct (updateTodo_store d id body now) as [-> | ->]; [exact H|].
      unfold update_todo. cbn [snd todos].
      rewrite Forall_forall in *. intros x Hx.
      apply in_map_iff in Hx. destruct Hx as (y & <- & Hy).
      destruct (Todo.id y =? id); [|now apply H].
      rewrite assign_todo_completed.
      destruct (UpdateTodoRequest.completed body) as [[|]|];
        cbn; auto.
    + destruct (select_by_id Todo.id id (todos d)) as [t|] eqn:E.
      * rewrite (deleteTodo_found d id t E). unfold delete_todo.
        cbn [store snd todos]. rewrite Forall_forall in *.
        intros x Hx. apply filter_In in Hx. now apply H.
      * now rewrite (deleteTodo_missing d id E).
  - destruct (serve_todos_unwritten now req d Ew) as [-> | (p & ->)];
      [exact H|].
    rewrite Forall_forall in *.
    intros x Hx. apply filter_In in Hx. now apply H.
Qed.

(** In every database built from [db], the [completed] of every todo is
    0 or 1: [createTodo] leaves it to the column default and
    [updateTodo] writes [completed ? 1 : 0]. *)
Theorem completed_is_always_a_bit (requests : list (timestamp * Request)) :
  completed_is_a_bit (replay requests db).
Proof.
  assert (H : forall d, completed_is_a_bit d ->
                completed_is_a_bit (replay requests d)).
  { induction requests as [|[now req] requests IH]; intros d Hd; cbn.
    - exact Hd.
    - apply IH. now apply serve_completed_is_a_bit. }
  apply H. constructor.
Qed.
